(** * Sky: a text star map (sky.py)

    A shallow embedding of [generate_star_map] from [sky.py] and the
    properties of its visibility filter, polar projection, grid
    rendering, colour substitution and report output.

    Modelling conventions.
    - Python [float] values are real numbers ([R]); [math.sin],
      [math.cos] are the real sine and cosine and [math.radians x] is
      [x * (PI / 180)].  Binary rounding error of IEEE doubles is outside
      the model.
    - Python [int] is [Z].
    - Python [str] is a list of Unicode code points ([list N]).
    - The astropy calls (frame transforms, ephemerides, [strftime] of the
      observing time) and [sys.stdout.isatty()] are inputs, gathered in
      the record [Env]. *)

From Stdlib Require Import Reals Lra Lia ZArith List String Ascii.
From Stdlib Require Import DecimalString.
From stdpp Require Import list.

Local Open Scope Z_scope.

(** ** Numbers *)

(** Python's [round(x)] on a float, with one argument: the nearest
    integer, a tie going to the even neighbour. *)
Definition py_round (x : R) : Z :=
  let f := Zfloor x in
  let d := (x - IZR f)%R in
  if Rlt_dec d (1 / 2) then f
  else if Rlt_dec (1 / 2) d then f + 1
  else if Z.even f then f else f + 1.

(** [math.radians]. *)
Definition radians (x : R) : R := (x * (PI / 180))%R.

(** ** Strings *)

Definition char := N.
Definition pystr := list char.

(** An ASCII literal as a Python string. *)
Definition lit (s : string) : pystr :=
  map N_of_ascii (list_ascii_of_string s).

Definition NL : char := 10%N.
Definition SPACE : char := 32%N.
Definition PLUS : char := 43%N.
Definition MINUS : char := 45%N.
Definition BAR : char := 124%N.
Definition STAR : char := 42%N.
Definition ESC : char := 27%N.
Definition DEGREE : char := 176%N.          (* U+00B0 *)
Definition BLACK_FOUR_STAR : char := 10022%N.  (* U+2726, the star glyph *)
Definition SUN_WITH_FACE : char := 127774%N.   (* U+1F31E, the Sun glyph *)
Definition FULL_MOON : char := 127765%N.       (* U+1F315, the Moon glyph *)
Definition WHITE_SUN : char := 9788%N.         (* U+263C *)
Definition HALF_CIRCLE : char := 9681%N.       (* U+25D1 *)

(** [sep.join(parts)]. *)
Fixpoint join (sep : pystr) (parts : list pystr) : pystr :=
  match parts with
  | [] => []
  | [p] => p
  | p :: rest => p ++ sep ++ join sep rest
  end.

Fixpoint starts_with (p s : pystr) : bool :=
  match p, s with
  | [], _ => true
  | _ :: _, [] => false
  | a :: p', b :: s' => N.eqb a b && starts_with p' s'
  end.

(** [replace_from old new skip s]: the scan of [str.replace] over [s],
    left to right and without overlap; [skip] counts the characters of a
    match just replaced that are still to be passed over. *)
Fixpoint replace_from (old new : pystr) (skip : nat) (s : pystr) : pystr :=
  match s with
  | [] => []
  | c :: s' =>
      match skip with
      | S k => replace_from old new k s'
      | O =>
          if starts_with old s
          then new ++ replace_from old new (Nat.pred (length old)) s'
          else c :: replace_from old new O s'
      end
  end.

(** [s.replace(old, new)]; an empty [old] matches before every character
    and at the end. *)
Definition replace (old new s : pystr) : pystr :=
  match old with
  | [] => new ++ flat_map (fun c => c :: new) s
  | _ :: _ => replace_from old new O s
  end.

(** Decimal digits of a non-negative integer. *)
Definition digits (n : Z) : pystr :=
  lit (NilZero.string_of_uint (N.to_uint (Z.to_N n))).

(** [s.rjust(w, '0')]. *)
Definition zero_pad (w : nat) (s : pystr) : pystr :=
  replicate (w - length s)%nat 48%N ++ s.

(** [format(x, '.<prec>f')]: sign, integer part, and [prec] decimals of
    the value rounded to the nearest multiple of [10^-prec], ties to
    even. *)
Definition format_fixed (prec : nat) (x : R) : pystr :=
  let scale := 10 ^ Z.of_nat prec in
  let n := py_round (Rabs x * IZR scale) in
  (if Rlt_dec x 0 then [MINUS] else [])
    ++ digits (n / scale)
    ++ match prec with
       | O => []
       | S _ => 46%N :: zero_pad prec (digits (n mod scale))
       end.

(** ** Output *)

(** The console and the files written, and a small monad for code that
    prints, writes and may raise. *)
Record World := { console : pystr; files : list (pystr * pystr) }.

(** An exception of a class derived from [Exception]: a [ValueError], or
    one of another class (a [TypeError], say), with its message. *)
Inductive exn :=
| ValueError (msg : pystr)
| OtherError (msg : pystr).

Inductive result (A : Type) :=
| Ok (a : A)
| Raise (e : exn).
Arguments Ok {A} a.
Arguments Raise {A} e.

Definition IO (A : Type) : Type := World -> result A * World.

Definition ret {A} (a : A) : IO A := fun w => (Ok a, w).

Definition bind {A B} (m : IO A) (k : A -> IO B) : IO B :=
  fun w => match m w with
           | (Ok a, w') => k a w'
           | (Raise e, w') => (Raise e, w')
           end.

Definition raise {A} (e : exn) : IO A := fun w => (Raise e, w).

Notation "x <- m ;; k" := (bind m (fun x => k))
  (at level 100, m at next level, right associativity).
Notation "m ;;; k" := (bind m (fun _ => k))
  (at level 100, right associativity).

(** [print(s)]. *)
Definition print (s : pystr) : IO unit :=
  fun w => (Ok tt, {| console := console w ++ s ++ [NL]; files := files w |}).

Definition pystr_eqb (a b : pystr) : bool := bool_decide (a = b).

(** [open(filename, 'w')]: the file is created or truncated. *)
Definition other_files (filename : pystr) (fs : list (pystr * pystr))
  : list (pystr * pystr) :=
  filter (fun p => pystr_eqb (fst p) filename = false) fs.

Definition open_w (filename : pystr) : IO unit :=
  fun w => (Ok tt,
            {| console := console w;
               files := (filename, []) :: other_files filename (files w) |}).

(** [file.write(s)] on the file opened as [filename]. *)
Definition file_write (filename s : pystr) : IO unit :=
  fun w => (Ok tt,
            {| console := console w;
               files := map (fun p : pystr * pystr => if pystr_eqb (fst p) filename
                                      then (fst p, snd p ++ s) else p) (files w) |}).

(** [for a in l: body(a)]. *)
Fixpoint for_each {A} (l : list A) (body : A -> IO unit) : IO unit :=
  match l with
  | [] => ret tt
  | a :: l' => body a ;;; for_each l' body
  end.

Definition read_file (filename : pystr) (w : World) : option pystr :=
  snd <$> find (fun p => pystr_eqb (fst p) filename) (files w).

(** ** The star map *)

(** An entry of [star_data]. *)
Record Star := { s_name : pystr; s_ra : pystr; s_dec : pystr }.

Definition star_data : list Star :=
  [ {| s_name := lit "Sirius"; s_ra := lit "06h45m08.917s"; s_dec := lit "-16d42m58.02s" |};
    {| s_name := lit "Betelgeuse"; s_ra := lit "05h55m10.3053s"; s_dec := lit "07d24m25.430s" |};
    {| s_name := lit "Rigel"; s_ra := lit "05h14m32.27210s"; s_dec := lit "-08d12m05.8981s" |};
    {| s_name := lit "Vega"; s_ra := lit "18h36m56.33635s"; s_dec := lit "38d47m01.2802s" |};
    {| s_name := lit "Altair"; s_ra := lit "19h50m47.00483s"; s_dec := lit "08d52m05.9566s" |};
    {| s_name := lit "Polaris"; s_ra := lit "02h31m49.09456s"; s_dec := lit "89d15m50.7923s" |};
    {| s_name := lit "Capella"; s_ra := lit "05h16m41.3587s"; s_dec := lit "45d59m52.768s" |};
    {| s_name := lit "Aldebaran"; s_ra := lit "04h35m55.239s"; s_dec := lit "16d30m33.49s" |};
    {| s_name := lit "Antares"; s_ra := lit "16h29m24.45970s"; s_dec := lit "-26d25m55.2094s" |};
    {| s_name := lit "Spica"; s_ra := lit "13h25m11.579s"; s_dec := lit "-11d09m40.75s" |};
    {| s_name := lit "Procyon"; s_ra := lit "07h39m18.1195s"; s_dec := lit "05d13m29.955s" |};
    {| s_name := lit "Deneb"; s_ra := lit "20h41m25.91513s"; s_dec := lit "45d16m49.2197s" |};
    {| s_name := lit "Canopus"; s_ra := lit "06h23m57.10988s"; s_dec := lit "-52d41m44.3810s" |};
    {| s_name := lit "Arcturus"; s_ra := lit "14h15m39.67207s"; s_dec := lit "19d10m56.673s" |};
    {| s_name := lit "Regulus"; s_ra := lit "10h08m22.3110s"; s_dec := lit "11d58m01.95s" |} ].

(** Horizontal coordinates in degrees ([altaz.az.deg], [altaz.alt.deg]). *)
Record AltAz := { az_deg : R; alt_deg : R }.

(** What the run receives from its collaborators: the frame transform of
    each catalog star, of the Sun and of the Moon at the observing time
    and location, the observer's latitude and longitude in degrees,
    [observing_time.utc.datetime.strftime], and [sys.stdout.isatty()]. *)
Record Env := {
  star_altaz : Star -> AltAz;
  sun : AltAz;
  moon : AltAz;
  lat_deg : R;
  lon_deg : R;
  strftime : pystr -> pystr;
  isatty : bool
}.

(** An element of [objects]. *)
Record Obj := { name : pystr; az : R; alt : R; symbol : char }.

(** The loop over [star_data]: a star is appended when its altitude is
    above 0. *)
Definition star_obj (env : Env) (star : Star) : Obj :=
  let altaz := star_altaz env star in
  {| name := s_name star; az := az_deg altaz; alt := alt_deg altaz;
     symbol := BLACK_FOUR_STAR |}.

Definition add_star (env : Env) (objects : list Obj) (star : Star) : list Obj :=
  let altaz := star_altaz env star in
  if Rgt_dec (alt_deg altaz) 0
  then objects ++ [star_obj env star]
  else objects.

Definition sun_obj (env : Env) : Obj :=
  {| name := lit "Sun"; az := az_deg (sun env); alt := alt_deg (sun env);
     symbol := SUN_WITH_FACE |}.

Definition moon_obj (env : Env) : Obj :=
  {| name := lit "Moon"; az := az_deg (moon env); alt := alt_deg (moon env);
     symbol := FULL_MOON |}.

(** [objects] as it stands after the star loop and the Sun and Moon
    tests. *)
Definition visible_objects (env : Env) : list Obj :=
  let objects := fold_left (add_star env) star_data [] in
  let objects :=
    if Rgt_dec (alt_deg (sun env)) (-18) then objects ++ [sun_obj env] else objects in
  if Rgt_dec (alt_deg (moon env)) 0 then objects ++ [moon_obj env] else objects.

(** The polar to Cartesian conversion and rounding of one object, over
    the reals.  The double-precision evaluation can differ from it in the
    last place, hence in the rounded cell when a coordinate is within such
    an error of a tie (azimuth 240, altitude 36 on a grid of 50, where
    the exact ordinate is 32.5). *)
Definition project (az alt : R) (grid_size : Z) : Z * Z :=
  let az_rad := radians az in
  let r := ((90 - alt) / 90 * (IZR grid_size / 2))%R in
  let x := (IZR grid_size / 2 + r * sin az_rad)%R in
  let y := (IZR grid_size / 2 - r * cos az_rad)%R in
  (py_round x, py_round y).

Definition in_grid (grid_size x y : Z) : bool :=
  (0 <=? x) && (x <? grid_size) && (0 <=? y) && (y <? grid_size).

(** [np.full((grid_size, grid_size), ' ')]; numpy refuses a negative
    dimension. *)
Definition np_full (grid_size : Z) : IO (list (list char)) :=
  if grid_size <? 0
  then raise (ValueError (lit "negative dimensions are not allowed"))
  else ret (replicate (Z.to_nat grid_size) (replicate (Z.to_nat grid_size) SPACE)).

(** One pass of the placement loop: [sky[y, x] = obj['symbol']] under the
    bounds guard. *)
Definition place (grid_size : Z) (sky : list (list char)) (obj : Obj)
  : list (list char) :=
  let '(x, y) := project (az obj) (alt obj) grid_size in
  if in_grid grid_size x y
  then alter (fun row => <[Z.to_nat x := symbol obj]> row) (Z.to_nat y) sky
  else sky.

Definition place_all (grid_size : Z) (objects : list Obj) (sky : list (list char))
  : list (list char) :=
  fold_left (place grid_size) objects sky.

Definition border (grid_size : Z) : pystr :=
  PLUS :: replicate (Z.to_nat grid_size) MINUS ++ [PLUS].

Definition sky_rows (grid_size : Z) (sky : list (list char)) : list pystr :=
  border grid_size :: map (fun row => BAR :: row ++ [BAR]) sky ++ [border grid_size].

(** The map as a string, before colouring. *)
Definition render (grid_size : Z) (sky : list (list char)) : pystr :=
  join [NL] (sky_rows grid_size sky).

(** The colour step. *)
Definition colorize (color_output tty : bool) (sky_map : pystr) : pystr :=
  if color_output && tty then
    let sky_map := replace [STAR] (ESC :: lit "[93m*" ++ ESC :: lit "[0m") sky_map in
    let sky_map := replace [WHITE_SUN]
                     (ESC :: lit "[91m" ++ WHITE_SUN :: ESC :: lit "[0m") sky_map in
    replace [HALF_CIRCLE] (ESC :: lit "[96m" ++ HALF_CIRCLE :: ESC :: lit "[0m") sky_map
  else sky_map.

(** A legend line. *)
Definition legend_line (obj : Obj) : pystr :=
  lit "- " ++ name obj ++ lit " at Azimuth: " ++ format_fixed 2 (az obj)
    ++ DEGREE :: lit ", Altitude: " ++ format_fixed 2 (alt obj) ++ [DEGREE].

Definition location_line (env : Env) : pystr :=
  lit "Location: " ++ format_fixed 4 (lat_deg env) ++ DEGREE :: lit " N, "
    ++ format_fixed 4 (lon_deg env) ++ DEGREE :: lit " E".

Definition date_line (env : Env) : pystr :=
  lit "Date and Time (UTC): " ++ strftime env (lit "%Y-%m-%d %H:%M:%S").

Definition save_filename (env : Env) : pystr :=
  lit "star_map_" ++ strftime env (lit "%Y%m%d_%H%M%S") ++ lit ".txt".

(** The [with open(filename, 'w')] block. *)
Definition save_report (env : Env) (sky_map : pystr) (objects : list Obj) : IO unit :=
  let filename := save_filename env in
  open_w filename ;;;
  file_write filename (92%N :: lit "033[1mStar Map:" ++ 92%N :: lit "033[0m" ++ [NL]) ;;;
  file_write filename (location_line env ++ [NL]) ;;;
  file_write filename (date_line env ++ [NL; NL]) ;;;
  file_write filename (sky_map ++ [NL; NL]) ;;;
  file_write filename (lit "Visible Objects:" ++ [NL]) ;;;
  for_each objects (fun obj => file_write filename (legend_line obj ++ [NL])) ;;;
  print (NL :: lit "Star map saved to " ++ filename).

(** The part of [generate_star_map] from the grid on, for a given list of
    objects. *)
Definition report (env : Env) (objects : list Obj)
    (grid_size : Z) (save_to_file color_output : bool) : IO unit :=
  sky <- np_full grid_size ;;
  let sky := place_all grid_size objects sky in
  let sky_map := colorize color_output (isatty env) (render grid_size sky) in
  print (NL :: lit "Star Map:") ;;;
  print (location_line env) ;;;
  print (date_line env) ;;;
  print sky_map ;;;
  print (NL :: lit "Visible Objects:") ;;;
  for_each objects (fun obj => print (legend_line obj)) ;;;
  if save_to_file then save_report env sky_map objects else ret tt.

Definition generate_star_map (env : Env)
    (grid_size : Z) (save_to_file color_output : bool) : IO unit :=
  report env (visible_objects env) grid_size save_to_file color_output.

(** The grid and the uncoloured map of a run, as pure functions. *)
Definition sky_of (grid_size : Z) (objects : list Obj) : list (list char) :=
  place_all grid_size objects
    (replicate (Z.to_nat grid_size) (replicate (Z.to_nat grid_size) SPACE)).

Definition legend (objects : list Obj) : list pystr := map legend_line objects.

Definition empty_world : World := {| console := []; files := [] |}.

(** The legend as printed: every line followed by a newline. *)
Definition legend_text (objects : list Obj) : pystr :=
  concat (map (fun l => l ++ [NL]) (legend objects)).

(** The cell an object projects to, and the glyph held at a cell. *)
Definition cell_of (grid_size : Z) (obj : Obj) : Z * Z :=
  project (az obj) (alt obj) grid_size.

Definition glyph_at (sky : list (list char)) (x y : Z) : option char :=
  match sky !! Z.to_nat y with
  | Some row => row !! Z.to_nat x
  | None => None
  end.

(** The visibility tests as booleans, and the stars that pass, in catalog
    order. *)
Definition star_visible (env : Env) (star : Star) : bool :=
  if Rgt_dec (alt_deg (star_altaz env star)) 0 then true else false.

Definition sun_visible (env : Env) : bool :=
  if Rgt_dec (alt_deg (sun env)) (-18) then true else false.

Definition moon_visible (env : Env) : bool :=
  if Rgt_dec (alt_deg (moon env)) 0 then true else false.

Definition visible_stars (env : Env) : list Obj :=
  map (star_obj env) (List.filter (star_visible env) star_data).

(** A grid of [n] rows of [n] cells. *)
Definition square (n : nat) (sky : list (list char)) : Prop :=
  length sky = n /\ Forall (fun row => length row = n) sky.

(** The map a run prints. *)
Definition sky_map_of (env : Env) (grid_size : Z) (objects : list Obj)
    (color_output : bool) : pystr :=
  colorize color_output (isatty env) (render grid_size (sky_of grid_size objects)).

(** The text of the console report, of the saved file, and of the
    confirmation line. *)
Definition console_report (env : Env) (sky_map : pystr) (objects : list Obj) : pystr :=
  (NL :: lit "Star Map:" ++ [NL])
    ++ (location_line env ++ [NL])
    ++ (date_line env ++ [NL])
    ++ (sky_map ++ [NL])
    ++ (NL :: lit "Visible Objects:" ++ [NL])
    ++ legend_text objects.

Definition file_title : pystr :=
  92%N :: lit "033[1mStar Map:" ++ 92%N :: lit "033[0m".

Definition file_report (env : Env) (sky_map : pystr) (objects : list Obj) : pystr :=
  (file_title ++ [NL])
    ++ (location_line env ++ [NL])
    ++ (date_line env ++ [NL; NL])
    ++ (sky_map ++ [NL; NL])
    ++ (lit "Visible Objects:" ++ [NL])
    ++ legend_text objects.

Definition confirmation (env : Env) : pystr :=
  NL :: lit "Star map saved to " ++ save_filename env ++ [NL].

(** The glyphs the objects carry, and the characters a map is made of. *)
Definition is_glyph (c : char) : bool :=
  existsb (N.eqb c) [BLACK_FOUR_STAR; SUN_WITH_FACE; FULL_MOON].

Definition is_map_char (c : char) : bool :=
  existsb (N.eqb c)
    [NL; PLUS; MINUS; BAR; SPACE; BLACK_FOUR_STAR; SUN_WITH_FACE; FULL_MOON].

(** Sample observations: an object far below the horizon, one at the
    zenith, and a run in which only the Sun is up, at the zenith. *)
Definition below_horizon : AltAz := {| az_deg := 0; alt_deg := -20 |}.
Definition at_zenith : AltAz := {| az_deg := 0; alt_deg := 90 |}.

Definition sample_strftime (fmt : pystr) : pystr :=
  if pystr_eqb fmt (lit "%Y%m%d_%H%M%S")
  then lit "20240101_000000" else lit "2024-01-01 00:00:00".

Definition env_sun_only : Env :=
  {| star_altaz := fun _ => below_horizon;
     sun := at_zenith;
     moon := below_horizon;
     lat_deg := 0; lon_deg := 0;
     strftime := sample_strftime;
     isatty := true |}.





(** Bring concatenations to right-nested form without unfolding the
    literals. *)
Ltac str_norm := repeat (progress (rewrite <- ?app_assoc; cbn [app])).

(** The number of cells of a grid that are not blank. *)
Definition marks (sky : list (list char)) : nat :=
  length (filter (fun c => c <> SPACE) (concat sky)).

(** ** Interaction *)

(** What the user does at a prompt: type a line, or interrupt. *)
Inductive keyboard :=
| Line (s : pystr)
| CtrlC.

(** What ends a computation early: an exception raised by a library
    call, the end of the input, or the user's interrupt. *)
Inductive signal :=
| Exception (e : exn)
| EOFError
| KeyboardInterrupt.

Inductive outcome (A : Type) :=
| Done (a : A)
| Fail (s : signal).
Arguments Done {A} a.
Arguments Fail {A} s.

(** Code that also reads from the keyboard. *)
Definition Run (A : Type) : Type :=
  list keyboard -> World -> outcome A * list keyboard * World.

Definition run_ret {A} (a : A) : Run A := fun keys w => (Done a, keys, w).

Definition run_bind {A B} (m : Run A) (k : A -> Run B) : Run B :=
  fun keys w => match m keys w with
                | (Done a, keys', w') => k a keys' w'
                | (Fail s, keys', w') => (Fail s, keys', w')
                end.

Notation "'let*' x ':=' m 'in' k" := (run_bind m (fun x => k))
  (at level 10, x name, m at level 100, k at level 200).
Notation "m '>>' k" := (run_bind m (fun _ => k))
  (at level 100, k at level 200, right associativity).

(** Code of the output monad, run where the keyboard is at hand. *)
Definition lift {A} (m : IO A) : Run A :=
  fun keys w => match m w with
                | (Ok a, w') => (Done a, keys, w')
                | (Raise e, w') => (Fail (Exception e), keys, w')
                end.

(** [input(prompt)]: the prompt is written without a newline, then a line
    is read. *)
Definition input (prompt : pystr) : Run pystr :=
  fun keys w =>
    let w' := {| console := console w ++ prompt; files := files w |} in
    match keys with
    | [] => (Fail EOFError, [], w')
    | Line s :: keys' => (Done s, keys', w')
    | CtrlC :: keys' => (Fail KeyboardInterrupt, keys', w')
    end.

(** [try: body except ValueError: handler]. *)
Definition try_except_ValueError {A} (body handler : Run A) : Run A :=
  fun keys w => match body keys w with
                | (Fail (Exception (ValueError _)), keys', w') => handler keys' w'
                | r => r
                end.

(** [str(e)] for the exceptions that [except Exception as e] catches. *)
Definition str_of_exception (s : signal) : pystr :=
  match s with
  | Exception (ValueError msg) => msg
  | Exception (OtherError msg) => msg
  | EOFError => lit "EOF when reading a line"
  | KeyboardInterrupt => []
  end.

(** [c.isspace()], and [s.strip()]. *)
Definition is_space (c : char) : bool :=
  existsb (N.eqb c)
    [9; 10; 11; 12; 13; 28; 29; 30; 31; 32; 133; 160; 5760;
     8192; 8193; 8194; 8195; 8196; 8197; 8198; 8199; 8200; 8201; 8202;
     8232; 8233; 8239; 8287; 12288]%N.

Fixpoint lstrip (s : pystr) : pystr :=
  match s with
  | [] => []
  | c :: s' => if is_space c then lstrip s' else s
  end.

Definition rstrip (s : pystr) : pystr := rev (lstrip (rev s)).

Definition strip (s : pystr) : pystr := rstrip (lstrip s).

(** The library calls of the input functions: [float] and [int] (the
    value, or the message of the [ValueError]), [str.lower], the
    constructor [EarthLocation(lat=..., lon=...)] (which may raise a
    [ValueError] or an exception of another class),
    [datetime.strptime] ([None] for its [ValueError]),
    [Time(dt)], [Time.now()], and what a run receives from astropy and
    the terminal for a location and a time. *)
Record Lib := {
  Location : Type;
  Time : Type;
  DateTime : Type;
  py_float : pystr -> R + pystr;
  py_int : pystr -> Z + pystr;
  py_lower : pystr -> pystr;
  EarthLocation : R -> R -> result Location;
  strptime : pystr -> pystr -> option DateTime;
  Time_of : DateTime -> Time;
  Time_now : Time;
  observe : Location -> Time -> Env
}.

Definition float_of (lib : Lib) (s : pystr) : Run R :=
  match py_float lib s with
  | inl x => run_ret x
  | inr msg => fun keys w => (Fail (Exception (ValueError msg)), keys, w)
  end.

Definition int_of (lib : Lib) (s : pystr) : Run Z :=
  match py_int lib s with
  | inl n => run_ret n
  | inr msg => fun keys w => (Fail (Exception (ValueError msg)), keys, w)
  end.

Definition greenwich (lib : Lib) : Run (Location lib) :=
  lift (fun w => (EarthLocation lib (514769 / 10000) (- (5 / 10000)), w)).

Definition get_user_location (lib : Lib) : Run (Location lib) :=
  try_except_ValueError
    (let* lat_text := input (lit "Enter your latitude (e.g., 51.4769 for Greenwich): ") in
     let* lat := float_of lib lat_text in
     let* lon_text := input (lit "Enter your longitude (e.g., -0.0005 for Greenwich): ") in
     let* lon := float_of lib lon_text in
     lift (fun w => (EarthLocation lib lat lon, w)))
    (lift (print (lit "Invalid input. Using default location: Greenwich Observatory."))
     >> greenwich lib).

Definition get_user_datetime (lib : Lib) : Run (Time lib) :=
  let* user_input :=
    input (lit "Enter date and time in YYYY-MM-DD HH:MM format (leave blank for current time): ") in
  if pystr_eqb (strip user_input) []
  then run_ret (Time_now lib)
  else
    match strptime lib user_input (lit "%Y-%m-%d %H:%M") with
    | Some dt => run_ret (Time_of lib dt)
    | None =>
        lift (print (lit "Invalid date/time format. Using current time."))
        >> run_ret (Time_now lib)
    end.

(** [generate_star_map] as a whole: the two questions, then the part
    modelled above on what astropy yields for the answers. *)
Definition generate_star_map_asking (lib : Lib) (grid_size : Z)
    (save_to_file color_output : bool) : Run unit :=
  let* location := get_user_location lib in
  let* observing_time := get_user_datetime lib in
  lift (generate_star_map (observe lib location observing_time)
          grid_size save_to_file color_output).

(** The body of the [try] of the main block. *)
Definition main_body (lib : Lib) : Run unit :=
  let* grid_input :=
    input (lit "Enter grid size (recommended between 20 and 100, default 50): ") in
  let* grid_size :=
    (if negb (pystr_eqb (strip grid_input) []) then int_of lib grid_input
     else run_ret 50) in
  let* save_text :=
    input (lit "Do you want to save the star map to a file? (y/n, default n): ") in
  let save_input := py_lower lib (strip save_text) in
  let* color_text := input (lit "Do you want colored output? (y/n, default y): ") in
  let color_input := py_lower lib (strip color_text) in
  let save_to_file := pystr_eqb save_input (lit "y") in
  let color_output := negb (pystr_eqb color_input (lit "n")) in
  generate_star_map_asking lib grid_size save_to_file color_output.

(** The main block with its two handlers. *)
Definition main (lib : Lib) : Run unit :=
  fun keys w =>
    match main_body lib keys w with
    | (Fail KeyboardInterrupt, keys', w') =>
        lift (print (NL :: lit "Operation cancelled by user.")) keys' w'
    | (Fail s, keys', w') =>
        lift (print (lit "An error occurred: " ++ str_of_exception s)) keys' w'
    | r => r
    end.

(** The two questions of [generate_star_map], in order. *)
Definition ask (lib : Lib) : Run (Location lib * Time lib) :=
  let* location := get_user_location lib in
  let* observing_time := get_user_datetime lib in
  run_ret (location, observing_time).

(** A computation that leaves the files alone. *)
Definition keeps_files {A} (m : Run A) : Prop :=
  forall keys w, files (snd (m keys w)) = files w.

(** A line with a character that is not white space. *)
Definition not_blank (s : pystr) : Prop := Exists (fun c => is_space c = false) s.

(** Sample library calls: a few texts parse, every location is accepted,
    no date parses, and the observation is the one in which the Sun alone
    is up. *)
Definition sample_lib : Lib :=
  {| Location := R * R; Time := unit; DateTime := unit;
     py_float := fun s =>
       if pystr_eqb s (lit "51.5") then inl (515 / 10)%R
       else if pystr_eqb s (lit "0") then inl 0%R
       else inr (lit "could not convert string to float");
     py_int := fun s =>
       if pystr_eqb s (lit "50") then inl 50
       else if pystr_eqb s (lit "-5") then inl (-5)
       else inr (lit "invalid literal for int() with base 10");
     py_lower := fun s => s;
     EarthLocation := fun lat lon => Ok (lat, lon);
     strptime := fun _ _ => None;
     Time_of := fun _ => tt;
     Time_now := tt;
     observe := fun _ _ => env_sun_only |}.

(** The cells inside the grid that the objects project to, in processing
    order. *)
Definition in_grid_cells (grid_size : Z) (objects : list Obj) : list (Z * Z) :=
  List.filter (fun c => in_grid grid_size (fst c) (snd c))
    (map (cell_of grid_size) objects).


(** * Properties *)

(** ** Rounding *)

Lemma py_round_IZR (n : Z) : py_round (IZR n) = n.
Proof.
  unfold py_round. rewrite ZfloorZ.
  destruct (Rlt_dec _ _) as [_ | Hn]; [reflexivity | lra].
Qed.

Lemma py_round_between (a b : Z) (x : R) :
  (IZR a <= x <= IZR b)%R -> a <= py_round x <= b.
Proof.
  intros [Ha Hb]. unfold py_round.
  pose proof (Zfloor_bound x) as [Hf1 Hf2].
  pose proof (Zfloor_lub a x Ha) as Hlo.
  assert (Hhi : Zfloor x <= b).
  { rewrite <- (ZfloorZ b). now apply Zfloor_le. }
  assert (Hstep : (IZR (Zfloor x) < x)%R -> Zfloor x + 1 <= b).
  { intros Hlt. destruct (Z.eq_dec (Zfloor x) b) as [E | E]; [| lia].
    rewrite E in Hlt. lra. }
  destruct (Rlt_dec _ _); [lia |].
  destruct (Rlt_dec _ _); [split; [lia | apply Hstep; lra] |].
  destruct (Z.even _); [lia | split; [lia | apply Hstep; lra]].
Qed.

Lemma py_round_half (k : Z) :
  py_round (IZR k + 1 / 2) = if Z.even k then k else k + 1.
Proof.
  unfold py_round.
  assert (E : Zfloor (IZR k + 1 / 2) = k) by (apply Zfloor_eq; lra).
  rewrite E.
  destruct (Rlt_dec _ _); [lra |].
  destruct (Rlt_dec _ _); [lra | reflexivity].
Qed.

Lemma py_round_nearest (x : R) : (Rabs (x - IZR (py_round x)) <= 1 / 2)%R.
Proof.
  unfold py_round. pose proof (Zfloor_bound x) as [Hf1 Hf2].
  destruct (Rlt_dec _ _).
  - rewrite Rabs_right; lra.
  - assert (Rabs (x - IZR (Zfloor x + 1)) <= 1 / 2)%R.
    { rewrite plus_IZR, Rabs_left1; lra. }
    destruct (Rlt_dec _ _); [assumption |].
    destruct (Z.even _); [rewrite Rabs_right; lra | assumption].
Qed.

(** ** Projection *)

Lemma radians_90 : radians 90 = (PI / 2)%R.
Proof. unfold radians. field. Qed.

Lemma radians_0 : radians 0 = 0%R.
Proof. unfold radians. field. Qed.

Lemma radius_range (alt : R) (grid_size : Z) :
  (0 <= alt <= 90)%R -> 0 <= grid_size ->
  (0 <= (90 - alt) / 90 * (IZR grid_size / 2) <= IZR grid_size / 2)%R.
Proof.
  intros [H0 H90] Hg. apply IZR_le in Hg.
  assert (0 <= (90 - alt) / 90 <= 1)%R as [Hq0 Hq1] by (split; lra).
  split; nra.
Qed.

Lemma project_zenith (az : R) (grid_size : Z) :
  project az 90 grid_size =
    (py_round (IZR grid_size / 2), py_round (IZR grid_size / 2)).
Proof.
  unfold project. f_equal; f_equal; field.
Qed.

Lemma project_closed_range (az alt : R) (grid_size : Z) :
  (0 <= alt <= 90)%R -> 0 <= grid_size ->
  0 <= fst (project az alt grid_size) <= grid_size /\
  0 <= snd (project az alt grid_size) <= grid_size.
Proof.
  intros Halt Hg. unfold project; cbn [fst snd].
  pose proof (radius_range alt grid_size Halt Hg) as [Hr0 Hr1].
  set (r := ((90 - alt) / 90 * (IZR grid_size / 2))%R) in *.
  pose proof (SIN_bound (radians az)) as [Hs1 Hs2].
  pose proof (COS_bound (radians az)) as [Hc1 Hc2].
  split; apply py_round_between; split; nra.
Qed.

Lemma in_grid_spec (grid_size x y : Z) :
  in_grid grid_size x y = true <-> (0 <= x < grid_size /\ 0 <= y < grid_size).
Proof. unfold in_grid. rewrite !andb_true_iff. lia. Qed.

Lemma project_horizon_east : project 90 0 50 = (50, 25).
Proof.
  unfold project. rewrite radians_90, sin_PI2, cos_PI2.
  replace (IZR 50 / 2 + (90 - 0) / 90 * (IZR 50 / 2) * 1)%R with (IZR 50) by field.
  replace (IZR 50 / 2 - (90 - 0) / 90 * (IZR 50 / 2) * 0)%R with (IZR 25) by field.
  now rewrite !py_round_IZR.
Qed.

Lemma project_zenith_even (az : R) (k : Z) : project az 90 (2 * k) = (k, k).
Proof.
  rewrite project_zenith.
  replace (IZR (2 * k) / 2)%R with (IZR k) by (rewrite mult_IZR; field).
  now rewrite py_round_IZR.
Qed.

Lemma project_zenith_odd (az : R) (k : Z) :
  project az 90 (2 * k + 1) =
    (if Z.even k then k else k + 1, if Z.even k then k else k + 1).
Proof.
  rewrite project_zenith.
  replace (IZR (2 * k + 1) / 2)%R with (IZR k + 1 / 2)%R
    by (rewrite plus_IZR, mult_IZR; field).
  now rewrite py_round_half.
Qed.

(** ** Formatting *)

Lemma format_fixed_IZR (prec : nat) (n : Z) :
  0 <= n ->
  format_fixed prec (IZR n) =
    digits n ++ match prec with
                | O => []
                | S _ => 46%N :: zero_pad prec (digits 0)
                end.
Proof.
  intros Hn. unfold format_fixed.
  assert (Hp : 0 < 10 ^ Z.of_nat prec) by (apply Z.pow_pos_nonneg; lia).
  rewrite Rabs_right by (apply Rle_ge, IZR_le; lia).
  rewrite <- mult_IZR, py_round_IZR.
  rewrite Z.div_mul, Z.mod_mul by lia.
  destruct (Rlt_dec _ _) as [Hlt | _]; [| reflexivity].
  apply IZR_le in Hn. lra.
Qed.

(** ** The list of objects *)

Lemma add_star_fold (env : Env) (stars : list Star) (acc : list Obj) :
  fold_left (add_star env) stars acc =
    acc ++ map (star_obj env) (List.filter (star_visible env) stars).
Proof.
  revert acc. induction stars as [| s stars IH]; intros acc; cbn [fold_left].
  - cbn. now rewrite app_nil_r.
  - rewrite IH. unfold add_star, star_visible. cbn [List.filter].
    destruct (Rgt_dec _ _); [| reflexivity].
    cbn [map]. now rewrite <- app_assoc.
Qed.

Lemma visible_objects_eq (env : Env) :
  visible_objects env =
    visible_stars env
      ++ (if sun_visible env then [sun_obj env] else [])
      ++ (if moon_visible env then [moon_obj env] else []).
Proof.
  unfold visible_objects, visible_stars, sun_visible, moon_visible.
  rewrite add_star_fold. cbn [app].
  destruct (Rgt_dec (alt_deg (sun env)) _), (Rgt_dec (alt_deg (moon env)) _);
    cbn [app]; rewrite ?app_nil_r, <- ?app_assoc; reflexivity.
Qed.

(** ** The grid *)

Lemma square_replicate (n : nat) : square n (replicate n (replicate n SPACE)).
Proof.
  split; [apply length_replicate |].
  apply Forall_replicate, length_replicate.
Qed.

Lemma place_outside (grid_size : Z) (sky : list (list char)) (obj : Obj) :
  (let '(x, y) := cell_of grid_size obj in in_grid grid_size x y) = false ->
  place grid_size sky obj = sky.
Proof.
  unfold place, cell_of. destruct (project _ _ _) as [x y]. now intros ->.
Qed.

Lemma place_square (n : nat) (grid_size : Z) (sky : list (list char)) (obj : Obj) :
  square n sky -> square n (place grid_size sky obj).
Proof.
  intros [Hlen Hrows]. unfold place.
  destruct (project _ _ _) as [x y]. destruct (in_grid _ _ _); [| now split].
  split; [now rewrite length_alter |].
  apply Forall_alter; [assumption |].
  intros row _ Hrow. now rewrite length_insert.
Qed.

Lemma place_all_square (n : nat) (grid_size : Z) (objects : list Obj)
    (sky : list (list char)) :
  square n sky -> square n (place_all grid_size objects sky).
Proof.
  revert sky. induction objects as [| o objects IH]; intros sky Hsq; [exact Hsq |].
  apply IH, place_square, Hsq.
Qed.

Lemma sky_of_square (grid_size : Z) (objects : list Obj) :
  square (Z.to_nat grid_size) (sky_of grid_size objects).
Proof. apply place_all_square, square_replicate. Qed.

Lemma place_all_app (grid_size : Z) (l1 l2 : list Obj) (sky : list (list char)) :
  place_all grid_size (l1 ++ l2) sky =
    place_all grid_size l2 (place_all grid_size l1 sky).
Proof. apply fold_left_app. Qed.

Lemma glyph_at_place_hit (grid_size : Z) (sky : list (list char)) (obj : Obj)
    (x y : Z) :
  square (Z.to_nat grid_size) sky ->
  cell_of grid_size obj = (x, y) -> in_grid grid_size x y = true ->
  glyph_at (place grid_size sky obj) x y = Some (symbol obj).
Proof.
  intros [Hlen Hrows] Hcell Hin. unfold place. unfold cell_of in Hcell.
  rewrite Hcell, Hin. apply in_grid_spec in Hin as [Hx Hy].
  unfold glyph_at. rewrite list_lookup_alter_eq.
  destruct (sky !! Z.to_nat y) as [row |] eqn:Hrow.
  - cbn. apply list_lookup_insert_eq.
    rewrite (Forall_lookup_1 _ _ _ _ Hrows Hrow). lia.
  - apply lookup_ge_None in Hrow. lia.
Qed.

Lemma glyph_at_place_miss (grid_size : Z) (sky : list (list char)) (obj : Obj)
    (x y : Z) :
  0 <= x -> 0 <= y -> cell_of grid_size obj <> (x, y) ->
  glyph_at (place grid_size sky obj) x y = glyph_at sky x y.
Proof.
  intros Hx Hy Hne. unfold place. unfold cell_of in Hne.
  destruct (project _ _ _) as [cx cy].
  destruct (in_grid grid_size cx cy) eqn:Hin; [| reflexivity].
  apply in_grid_spec in Hin as [Hcx Hcy]. unfold glyph_at.
  destruct (Z.eq_dec cy y) as [-> | Hy'].
  - rewrite list_lookup_alter_eq. destruct (sky !! Z.to_nat y); [| reflexivity].
    cbn. apply list_lookup_insert_ne. intros E. apply Hne. f_equal. lia.
  - rewrite list_lookup_alter_ne by lia. reflexivity.
Qed.

Lemma glyph_at_place_all_miss (grid_size : Z) (objects : list Obj)
    (sky : list (list char)) (x y : Z) :
  0 <= x -> 0 <= y ->
  Forall (fun o => cell_of grid_size o <> (x, y)) objects ->
  glyph_at (place_all grid_size objects sky) x y = glyph_at sky x y.
Proof.
  intros Hx Hy. revert sky.
  induction objects as [| o objects IH]; intros sky Hall; [reflexivity |].
  inversion Hall as [| ? ? Ho Hrest]; subst. cbn [place_all fold_left].
  change (fold_left (place grid_size) objects (place grid_size sky o))
    with (place_all grid_size objects (place grid_size sky o)).
  rewrite IH by assumption. now apply glyph_at_place_miss.
Qed.

(** ** Running the report *)

Lemma for_each_print {A} (f : A -> pystr) (l : list A) (w : World) :
  for_each l (fun a => print (f a)) w =
    (Ok tt, {| console := console w ++ concat (map (fun a => f a ++ [NL]) l);
               files := files w |}).
Proof.
  revert w. induction l as [| a l IH]; intros w.
  - cbn. rewrite app_nil_r. now destruct w.
  - cbn [for_each]. unfold bind at 1. unfold print at 1. rewrite IH. cbn.
    now rewrite <- !app_assoc.
Qed.

Lemma pystr_eqb_refl (s : pystr) : pystr_eqb s s = true.
Proof. now apply bool_decide_eq_true_2. Qed.

Lemma write_other_files (filename s : pystr) (fs : list (pystr * pystr)) :
  map (fun p : pystr * pystr =>
         if pystr_eqb (fst p) filename then (fst p, snd p ++ s) else p)
      (other_files filename fs) = other_files filename fs.
Proof.
  unfold other_files. induction fs as [| p fs IH]; [reflexivity |].
  rewrite filter_cons. destruct (decide _) as [E | E]; [| exact IH].
  cbn [map]. cbv beta. rewrite E. now f_equal.
Qed.

Lemma file_write_head (filename s content out : pystr)
    (fs : list (pystr * pystr)) :
  file_write filename s
      {| console := out; files := (filename, content) :: other_files filename fs |} =
    (Ok tt, {| console := out;
               files := (filename, content ++ s) :: other_files filename fs |}).
Proof.
  unfold file_write. cbn. now rewrite pystr_eqb_refl, write_other_files.
Qed.

Lemma for_each_write {A} (f : A -> pystr) (l : list A)
    (filename content out : pystr) (fs : list (pystr * pystr)) :
  for_each l (fun a => file_write filename (f a))
      {| console := out; files := (filename, content) :: other_files filename fs |} =
    (Ok tt, {| console := out;
               files := (filename, content ++ concat (map f l))
                          :: other_files filename fs |}).
Proof.
  revert content. induction l as [| a l IH]; intros content.
  - cbn. now rewrite app_nil_r.
  - cbn [for_each]. unfold bind at 1. rewrite file_write_head, IH. cbn.
    now rewrite <- app_assoc.
Qed.

Lemma save_report_run (env : Env) (sky_map : pystr) (objects : list Obj) (w : World) :
  save_report env sky_map objects w =
    (Ok tt, {| console := console w ++ confirmation env;
               files := (save_filename env, file_report env sky_map objects)
                          :: other_files (save_filename env) (files w) |}).
Proof.
  unfold save_report, bind. unfold open_w at 1.
  rewrite !file_write_head.
  rewrite (for_each_write (fun obj => legend_line obj ++ [NL])).
  unfold print, confirmation, file_report, legend_text, legend, file_title.
  cbn [console files]. rewrite map_map. now str_norm.
Qed.

Lemma report_run (env : Env) (objects : list Obj) (grid_size : Z)
    (save_to_file color_output : bool) (w : World) :
  0 <= grid_size ->
  report env objects grid_size save_to_file color_output w =
    let sky_map := sky_map_of env grid_size objects color_output in
    (Ok tt,
     {| console := console w ++ console_report env sky_map objects
                     ++ (if save_to_file then confirmation env else []);
        files := if save_to_file
                 then (save_filename env, file_report env sky_map objects)
                        :: other_files (save_filename env) (files w)
                 else files w |}).
Proof.
  intros Hg. unfold report, np_full.
  destruct (Z.ltb_spec grid_size 0) as [Hneg | _]; [lia |].
  unfold bind at 1. unfold ret at 1.
  fold (sky_of grid_size objects). fold (sky_map_of env grid_size objects color_output).
  set (sky_map := sky_map_of env grid_size objects color_output).
  unfold bind. unfold print at 1 2 3 4 5.
  rewrite (for_each_print legend_line). cbn [console files].
  destruct save_to_file.
  - rewrite save_report_run. cbn [console files].
    unfold console_report, legend_text, legend. rewrite map_map. now str_norm.
  - unfold ret, console_report, legend_text, legend. rewrite map_map.
    rewrite app_nil_r. now str_norm.
Qed.

Lemma report_negative (env : Env) (objects : list Obj) (grid_size : Z)
    (save_to_file color_output : bool) (w : World) :
  grid_size < 0 ->
  report env objects grid_size save_to_file color_output w =
    (Raise (ValueError (lit "negative dimensions are not allowed")), w).
Proof.
  intros Hg. unfold report, np_full.
  destruct (Z.ltb_spec grid_size 0) as [_ | Hpos]; [reflexivity | lia].
Qed.

(** ** Characters of the map and the colour step *)

Lemma is_glyph_map_char (c : char) : is_glyph c = true -> is_map_char c = true.
Proof.
  unfold is_glyph. cbn [existsb]. rewrite !orb_true_iff, !N.eqb_eq.
  intros [-> | [-> | [-> | H]]]; [reflexivity .. | discriminate].
Qed.

Lemma map_char_not_searched (c : char) :
  is_map_char c = true -> c <> STAR /\ c <> WHITE_SUN /\ c <> HALF_CIRCLE.
Proof.
  intros H. repeat split; intros ->; vm_compute in H; discriminate.
Qed.

Lemma place_cells (P : char -> Prop) (grid_size : Z) (sky : list (list char))
    (obj : Obj) :
  P (symbol obj) -> Forall (Forall P) sky ->
  Forall (Forall P) (place grid_size sky obj).
Proof.
  intros Hg Hsky. unfold place. destruct (project _ _ _) as [x y].
  destruct (in_grid _ _ _); [| assumption].
  apply Forall_alter; [assumption |].
  intros row _ Hrow. now apply Forall_insert.
Qed.

Lemma sky_of_cells (P : char -> Prop) (grid_size : Z) (objects : list Obj) :
  P SPACE -> Forall (fun o => P (symbol o)) objects ->
  Forall (Forall P) (sky_of grid_size objects).
Proof.
  intros Hsp. unfold sky_of, place_all.
  assert (H0 : Forall (Forall P)
                 (replicate (Z.to_nat grid_size)
                    (replicate (Z.to_nat grid_size) SPACE))).
  { now apply Forall_replicate, Forall_replicate. }
  revert H0. generalize (replicate (Z.to_nat grid_size)
                           (replicate (Z.to_nat grid_size) SPACE)).
  induction objects as [| o objects IH]; intros sky Hsky Hobjs; [assumption |].
  inversion Hobjs; subst. cbn [fold_left].
  apply IH; [now apply place_cells | assumption].
Qed.

Lemma sky_of_map_chars (grid_size : Z) (objects : list Obj) :
  Forall (fun o => is_glyph (symbol o) = true) objects ->
  Forall (Forall (fun c => is_map_char c = true)) (sky_of grid_size objects).
Proof.
  intros H. apply sky_of_cells; [reflexivity |].
  eapply Forall_impl; [exact H |]. intros o. apply is_glyph_map_char.
Qed.

Lemma join_chars (P : char -> Prop) (sep : pystr) (parts : list pystr) :
  Forall P sep -> Forall (Forall P) parts -> Forall P (join sep parts).
Proof.
  intros Hsep. induction 1 as [| p parts Hp Hparts IH]; [constructor |].
  cbn [join]. destruct parts as [| q parts]; [assumption |].
  apply Forall_app; split; [assumption |].
  apply Forall_app; split; [assumption | exact IH].
Qed.

Lemma render_map_chars (grid_size : Z) (sky : list (list char)) :
  Forall (Forall (fun c => is_map_char c = true)) sky ->
  Forall (fun c => is_map_char c = true) (render grid_size sky).
Proof.
  intros Hsky. unfold render, sky_rows.
  assert (Hb : Forall (fun c => is_map_char c = true) (border grid_size)).
  { unfold border. constructor; [reflexivity |].
    apply Forall_app; split; [now apply Forall_replicate | now constructor]. }
  apply join_chars; [now constructor |].
  constructor; [assumption |].
  apply Forall_app; split; [| now constructor].
  apply Forall_fmap. eapply Forall_impl; [exact Hsky |].
  intros row Hrow. cbn. constructor; [reflexivity |].
  apply Forall_app; split; [assumption | now constructor].
Qed.

Lemma replace_absent (c : char) (new s : pystr) :
  Forall (fun d => d <> c) s -> replace [c] new s = s.
Proof.
  unfold replace. induction 1 as [| d s Hd Hs IH]; [reflexivity |].
  cbn [replace_from starts_with].
  destruct (N.eqb_spec c d) as [E | _]; [now elim Hd |].
  cbn [andb]. now rewrite IH.
Qed.

Lemma colorize_map_chars (color_output tty : bool) (sky_map : pystr) :
  Forall (fun c => is_map_char c = true) sky_map ->
  colorize color_output tty sky_map = sky_map.
Proof.
  intros H. unfold colorize. destruct (color_output && tty); [| reflexivity].
  rewrite (replace_absent STAR), (replace_absent WHITE_SUN),
    (replace_absent HALF_CIRCLE); try reflexivity;
    (eapply Forall_impl; [exact H |]);
    intros c Hc; now apply map_char_not_searched in Hc.
Qed.

Lemma visible_objects_glyphs (env : Env) :
  Forall (fun o => is_glyph (symbol o) = true) (visible_objects env).
Proof.
  rewrite visible_objects_eq. unfold visible_stars.
  apply Forall_app; split.
  - apply Forall_fmap, Forall_forall. intros; reflexivity.
  - apply Forall_app; split.
    + destruct (sun_visible env); now repeat constructor.
    + destruct (moon_visible env); now repeat constructor.
Qed.

(** ** Membership in the list of objects *)








(** ** The sample run *)

Lemma read_file_head (filename content out : pystr) (fs : list (pystr * pystr)) :
  read_file filename {| console := out; files := (filename, content) :: fs |}
  = Some content.
Proof.
  unfold read_file. cbn [files find fst]. now rewrite pystr_eqb_refl.
Qed.

Lemma sun_only_hides_stars (stars : list Star) :
  List.filter (star_visible env_sun_only) stars = [].
Proof.
  induction stars as [| s stars IH]; [reflexivity |].
  cbn [List.filter]. rewrite IH.
  unfold star_visible. cbn [env_sun_only star_altaz below_horizon alt_deg].
  destruct (Rgt_dec _ _); [lra | reflexivity].
Qed.

Lemma sun_only_objects : visible_objects env_sun_only = [sun_obj env_sun_only].
Proof.
  rewrite visible_objects_eq. unfold visible_stars.
  rewrite sun_only_hides_stars. unfold sun_visible, moon_visible.
  cbn [env_sun_only sun moon at_zenith below_horizon alt_deg].
  destruct (Rgt_dec 90 _); [| lra]. destruct (Rgt_dec (-20) _); [lra |].
  reflexivity.
Qed.

Lemma sun_only_sky :
  sky_of 2 [sun_obj env_sun_only] = [[SPACE; SPACE]; [SPACE; SUN_WITH_FACE]].
Proof.
  assert (Hcell : cell_of 2 (sun_obj env_sun_only) = (1, 1))
    by apply (project_zenith_even 0 1).
  unfold sky_of, place_all, place. cbn [fold_left].
  unfold cell_of in Hcell. rewrite Hcell. reflexivity.
Qed.

(** * The claims *)

(** C4, as stated, fails: an object on the horizon due east (azimuth 90,
    altitude 0) on the default 50 by 50 grid projects to column 50, which
    the bounds guard rejects. *)
Lemma horizon_east_leaves_grid :
  (0 <= 90 < 360)%R /\ (0 <= 0 <= 90)%R /\ 2 <= 50
  /\ project 90 0 50 = (50, 25)
  /\ (let '(x, y) := project 90 0 50 in in_grid 50 x y) = false.
Proof.
  rewrite project_horizon_east.
  repeat split; try lra; try lia.
Qed.

(** C4, amended. For every azimuth, every altitude in [0, 90] and every
    grid size that is not negative, the projected cell lies in the closed
    range [0, grid_size] on both axes, and the bounds guard rejects it
    exactly when a coordinate equals [grid_size]. *)
Theorem projection_within_closed_grid (az0 alt0 : R) (grid_size : Z) :
  (0 <= alt0 <= 90)%R -> 0 <= grid_size ->
  let '(x, y) := project az0 alt0 grid_size in
  0 <= x <= grid_size /\ 0 <= y <= grid_size
  /\ (in_grid grid_size x y = false <-> x = grid_size \/ y = grid_size).
Proof.
  intros Halt Hg.
  pose proof (project_closed_range az0 alt0 grid_size Halt Hg) as [Hx Hy].
  destruct (project az0 alt0 grid_size) as [x y]. cbn [fst snd] in *.
  split; [assumption |]. split; [assumption |].
  destruct (in_grid grid_size x y) eqn:E.
  - apply in_grid_spec in E. split; [discriminate | lia].
  - split; [intros _ | reflexivity].
    destruct (Z.eq_dec x grid_size) as [| Hx']; [now left |].
    destruct (Z.eq_dec y grid_size) as [| Hy']; [now right |].
    assert (in_grid grid_size x y = true) by (apply in_grid_spec; lia).
    congruence.
Qed.

Lemma projection_within_closed_grid_witness :
  let '(x, y) := project 90 0 50 in
  0 <= x <= 50 /\ 0 <= y <= 50 /\ (in_grid 50 x y = false <-> x = 50 \/ y = 50).
Proof.
  apply (projection_within_closed_grid 90 0 50); [lra | lia].
Defined.

(** C6, as stated, fails: on a grid of size 3 the zenith is projected to
    cell (2, 2), whereas the centre cell of 3 by 3 cells is (1, 1), which
    is also [(3 / 2, 3 / 2)] in integers; nor is 2 the number 3/2. *)
Lemma zenith_off_centre_on_grid_3 :
  project 0 90 3 = (2, 2)
  /\ (2, 2) <> (3 / 2, 3 / 2)
  /\ IZR 2 <> (IZR 3 / 2)%R.
Proof.
  split; [apply (project_zenith_odd 0 1) |].
  split; [discriminate | lra].
Qed.

(** C6, amended. An object at altitude 90 projects, for every azimuth and
    every grid size, to the cell whose two coordinates are [grid_size / 2]
    rounded as Python rounds, a tie going to the even neighbour: on a grid
    of size [2 * k] this is the cell [(k, k)]; on a grid of size
    [2 * k + 1] it is the centre cell [(k, k)] when [k] is even and
    [(k + 1, k + 1)], one cell past the centre, when [k] is odd.  On the
    50 by 50 grid a single star at azimuth 0 and altitude 90 is placed at
    cell (25, 25), every other cell stays blank, and its legend line
    reads [Azimuth: 0.00 deg, Altitude: 90.00 deg]. *)
Theorem zenith_cell (az0 : R) (grid_size k : Z) (star_name : pystr) :
  project az0 90 grid_size =
    (py_round (IZR grid_size / 2), py_round (IZR grid_size / 2))
  /\ project az0 90 (2 * k) = (k, k)
  /\ project az0 90 (2 * k + 1) =
       (if Z.even k then k else k + 1, if Z.even k then k else k + 1)
  /\ let star := {| name := star_name; az := 0; alt := 90;
                    symbol := BLACK_FOUR_STAR |} in
     cell_of 50 star = (25, 25)
     /\ sky_of 50 [star] =
          alter (fun row => <[25%nat := BLACK_FOUR_STAR]> row) 25%nat
            (replicate 50 (replicate 50 SPACE))
     /\ glyph_at (sky_of 50 [star]) 25 25 = Some BLACK_FOUR_STAR
     /\ legend [star] =
          [ lit "- " ++ star_name ++ lit " at Azimuth: " ++ lit "0.00"
              ++ DEGREE :: lit ", Altitude: " ++ lit "90.00" ++ [DEGREE] ].
Proof.
  split; [apply project_zenith |].
  split; [apply project_zenith_even |].
  split; [apply project_zenith_odd |].
  intros star.
  assert (Hcell : cell_of 50 star = (25, 25)) by apply (project_zenith_even 0 25).
  split; [exact Hcell |]. split; [| split].
  - unfold sky_of, place_all, place. cbn [fold_left].
    unfold cell_of in Hcell. rewrite Hcell. reflexivity.
  - unfold sky_of, place_all. cbn [fold_left].
    apply glyph_at_place_hit; [apply (square_replicate 50) | exact Hcell | reflexivity].
  - unfold legend, legend_line. cbn [map name az alt star].
    rewrite (format_fixed_IZR 2 0), (format_fixed_IZR 2 90) by lia.
    reflexivity.
Qed.

(** C3. Objects are processed in the order: catalog stars that pass, in
    catalog order, then the Sun, then the Moon; and the glyph a cell ends
    up with is that of the last processed object projecting to it: if
    [obj] projects to the in-grid cell [(x, y)] and no object after it
    does, the cell holds the glyph of [obj], whatever was placed
    before. *)
Theorem last_write_wins (env : Env) (grid_size : Z) (before after : list Obj)
    (obj : Obj) (x y : Z) :
  visible_objects env =
    map (star_obj env) (List.filter (star_visible env) star_data)
      ++ (if sun_visible env then [sun_obj env] else [])
      ++ (if moon_visible env then [moon_obj env] else [])
  /\ (cell_of grid_size obj = (x, y) -> in_grid grid_size x y = true ->
      Forall (fun o => cell_of grid_size o <> (x, y)) after ->
      glyph_at (sky_of grid_size (before ++ obj :: after)) x y = Some (symbol obj)).
Proof.
  split; [apply visible_objects_eq |].
  intros Hcell Hin Hafter.
  pose proof Hin as Hrange. apply in_grid_spec in Hrange as [Hx Hy].
  unfold sky_of. rewrite place_all_app. cbn [place_all fold_left].
  change (fold_left (place grid_size) after ?s) with (place_all grid_size after s).
  rewrite glyph_at_place_all_miss by (assumption || lia).
  apply glyph_at_place_hit; [| assumption | assumption].
  apply place_all_square, square_replicate.
Qed.

Lemma last_write_wins_witness :
  let vega := {| name := lit "Vega"; az := 0; alt := 90;
                 symbol := BLACK_FOUR_STAR |} in
  glyph_at (sky_of 50 [vega]) 25 25 = Some BLACK_FOUR_STAR
  /\ glyph_at (sky_of 50 ([vega] ++ sun_obj env_sun_only :: [])) 25 25
     = Some SUN_WITH_FACE.
Proof.
  intros vega. split.
  { refine (proj2 (last_write_wins env_sun_only 50 [] [] vega 25 25) _ _ _).
    - apply (project_zenith_even 0 25).
    - reflexivity.
    - constructor. }
  refine (proj2 (last_write_wins env_sun_only 50 _ [] (sun_obj env_sun_only) 25 25)
            _ _ _).
  - apply (project_zenith_even 0 25).
  - reflexivity.
  - constructor.
Defined.

(** C5. A listed object whose cell falls outside the grid changes no cell
    (the grid is the one obtained without it), the run completes without
    an error, and the object is still listed: the legend printed holds,
    at the object's place in processing order, the line that names it and
    gives its azimuth and altitude to two decimals. *)
Theorem outside_dropped_but_listed (env : Env) (grid_size : Z)
    (before after : list Obj) (obj : Obj)
    (save_to_file color_output : bool) (w : World) :
  0 <= grid_size ->
  (let '(x, y) := cell_of grid_size obj in in_grid grid_size x y) = false ->
  let objects := before ++ obj :: after in
  let line :=
    lit "- " ++ name obj ++ lit " at Azimuth: " ++ format_fixed 2 (az obj)
      ++ DEGREE :: lit ", Altitude: " ++ format_fixed 2 (alt obj) ++ [DEGREE] in
  let sky_map := sky_map_of env grid_size (before ++ after) color_output in
  place grid_size (sky_of grid_size before) obj = sky_of grid_size before
  /\ sky_of grid_size objects = sky_of grid_size (before ++ after)
  /\ legend objects = legend before ++ line :: legend after
  /\ report env objects grid_size save_to_file color_output w =
       (Ok tt,
        {| console :=
             console w
               ++ (NL :: lit "Star Map:" ++ [NL])
               ++ (location_line env ++ [NL])
               ++ (date_line env ++ [NL])
               ++ (sky_map ++ [NL])
               ++ (NL :: lit "Visible Objects:" ++ [NL])
               ++ legend_text before ++ (line ++ [NL]) ++ legend_text after
               ++ (if save_to_file then confirmation env else []);
           files :=
             if save_to_file
             then (save_filename env, file_report env sky_map objects)
                    :: other_files (save_filename env) (files w)
             else files w |}).
Proof.
  intros Hg Hout objects line sky_map.
  assert (Hsky : sky_of grid_size objects = sky_of grid_size (before ++ after)).
  { unfold objects, sky_of. rewrite !place_all_app. cbn [place_all fold_left].
    now rewrite place_outside. }
  assert (Hleg : legend objects = legend before ++ line :: legend after).
  { unfold objects, legend. now rewrite map_app. }
  split; [now apply place_outside |]. split; [exact Hsky |].
  split; [exact Hleg |].
  rewrite report_run by assumption. cbv zeta.
  unfold sky_map_of. rewrite Hsky. fold (sky_map_of env grid_size (before ++ after) color_output).
  fold sky_map. f_equal. f_equal.
  unfold console_report, legend_text. rewrite Hleg, map_app, concat_app.
  cbn [map concat]. now str_norm.
Qed.

Lemma outside_dropped_but_listed_witness :
  let horizon_sun :=
    {| name := lit "Sun"; az := 90; alt := 0; symbol := SUN_WITH_FACE |} in
  sky_of 50 ([] ++ horizon_sun :: []) = sky_of 50 ([] ++ [])
  /\ legend ([] ++ horizon_sun :: []) =
       legend [] ++ (lit "- Sun at Azimuth: 90.00" ++ DEGREE
                       :: lit ", Altitude: 0.00" ++ [DEGREE]) :: legend [].
Proof.
  intros horizon_sun.
  assert (Hout : (let '(x, y) := cell_of 50 horizon_sun in in_grid 50 x y) = false).
  { unfold cell_of. cbn [az alt horizon_sun]. now rewrite project_horizon_east. }
  pose proof (outside_dropped_but_listed env_sun_only 50 [] [] horizon_sun
                false false empty_world ltac:(lia) Hout) as (_ & H1 & H2 & _).
  split; [exact H1 |]. rewrite H2. cbn [name az alt horizon_sun].
  rewrite (format_fixed_IZR 2 90), (format_fixed_IZR 2 0) by lia. reflexivity.
Defined.



(** C7. For a grid size [N] that is not negative and any list of objects,
    the map is the top border [+], [N] times [-], [+]; then the [N] rows
    of the grid, each [|], its [N] cells, [|]; then the same border,
    joined by newlines.  The grid has [N] rows of [N] cells whatever the
    objects are; without objects every cell is blank and the legend is
    empty.  A run prints this map for the objects that pass the
    visibility tests. *)
Theorem map_layout (env : Env) (grid_size : Z) (objects : list Obj)
    (save_to_file color_output : bool) (w : World) :
  0 <= grid_size ->
  let N := Z.to_nat grid_size in
  let sky := sky_of grid_size objects in
  let edge := PLUS :: replicate N MINUS ++ [PLUS] in
  render grid_size sky =
    join [NL] ([edge] ++ map (fun row => BAR :: row ++ [BAR]) sky ++ [edge])
  /\ length sky = N
  /\ Forall (fun row => length row = N) sky
  /\ sky_of grid_size [] = replicate N (replicate N SPACE)
  /\ legend_text [] = []
  /\ generate_star_map env grid_size save_to_file color_output w =
       (let shown := visible_objects env in
        let sky_map := render grid_size (sky_of grid_size shown) in
        (Ok tt,
         {| console := console w ++ console_report env sky_map shown
                         ++ (if save_to_file then confirmation env else []);
            files := if save_to_file
                     then (save_filename env, file_report env sky_map shown)
                            :: other_files (save_filename env) (files w)
                     else files w |})).
Proof.
  intros Hg N sky edge.
  destruct (sky_of_square grid_size objects) as [Hlen Hrows].
  repeat split; try assumption; try reflexivity.
  unfold generate_star_map. rewrite report_run by assumption. cbv zeta.
  unfold sky_map_of. rewrite colorize_map_chars; [reflexivity |].
  apply render_map_chars, sky_of_map_chars, visible_objects_glyphs.
Qed.

Lemma map_layout_witness :
  render 3 (sky_of 3 []) =
    join [NL] ([lit "+---+"] ++ map (fun row => BAR :: row ++ [BAR]) (sky_of 3 [])
                 ++ [lit "+---+"])
  /\ sky_of 3 [] = [lit "   "; lit "   "; lit "   "].
Proof.
  pose proof (map_layout env_sun_only 3 [] false false empty_world ltac:(lia))
    as (H1 & _ & _ & H2 & _).
  split; [exact H1 | exact H2].
Defined.

(** C8, evaluated where it fails.  With colour output requested and
    standard output a terminal, a run in which the Sun alone is up (at
    the zenith, grid size 2) prints a map that holds the Sun glyph and no
    escape character at all: the glyph is not wrapped. *)
Theorem sun_glyph_not_coloured :
  let sky_map := sky_map_of env_sun_only 2 (visible_objects env_sun_only) true in
  isatty env_sun_only = true
  /\ sky_map = lit "+--+" ++ NL :: lit "|  |" ++ NL
                :: lit "| " ++ SUN_WITH_FACE :: lit "|" ++ NL :: lit "+--+"
  /\ In SUN_WITH_FACE sky_map
  /\ ~ In ESC sky_map.
Proof.
  intros sky_map.
  assert (E : sky_map = lit "+--+" ++ NL :: lit "|  |" ++ NL
                :: lit "| " ++ SUN_WITH_FACE :: lit "|" ++ NL :: lit "+--+").
  { unfold sky_map, sky_map_of. rewrite sun_only_objects.
    rewrite colorize_map_chars.
    - rewrite sun_only_sky. reflexivity.
    - apply render_map_chars, sky_of_map_chars. now repeat constructor. }
  split; [reflexivity |]. split; [exact E |]. rewrite E.
  split; [vm_compute; tauto |].
  vm_compute. intros H.
  repeat (destruct H as [H | H]; [discriminate H |]). exact H.
Qed.

(** C10. The colour flag has no influence on the output.  A run with
    colour output requested and the same run without it return the same
    result, print the same text and write the same file; for any objects
    carrying the three glyphs of the program, every cell of the grid is
    blank or one of these glyphs, none of the three searched characters
    occurs in the map, and the colour step returns the map unchanged,
    terminal or not. *)
Theorem colour_flag_without_effect (env : Env) (grid_size : Z)
    (save_to_file tty : bool) (w : World) (objects : list Obj) :
  generate_star_map env grid_size save_to_file true w =
    generate_star_map env grid_size save_to_file false w
  /\ (Forall (fun o => is_glyph (symbol o) = true) objects ->
      let sky := sky_of grid_size objects in
      Forall (Forall (fun c => c = SPACE \/ is_glyph c = true)) sky
      /\ Forall (fun c => c <> STAR /\ c <> WHITE_SUN /\ c <> HALF_CIRCLE)
           (render grid_size sky)
      /\ colorize true tty (render grid_size sky) = render grid_size sky
      /\ colorize true tty (render grid_size sky) =
           colorize false tty (render grid_size sky)).
Proof.
  split.
  - unfold generate_star_map.
    destruct (Z.lt_ge_cases grid_size 0) as [Hneg | Hpos].
    + now rewrite !report_negative.
    + rewrite !report_run by assumption. cbv zeta. unfold sky_map_of.
      rewrite !colorize_map_chars; [reflexivity | |];
        apply render_map_chars, sky_of_map_chars, visible_objects_glyphs.
  - intros Hobjs sky.
    assert (Hchars : Forall (fun c => is_map_char c = true) (render grid_size sky))
      by now apply render_map_chars, sky_of_map_chars.
    split; [| split; [| split]].
    + apply sky_of_cells; [now left |].
      eapply Forall_impl; [exact Hobjs |]. intros o Ho. now right.
    + eapply Forall_impl; [exact Hchars |]. apply map_char_not_searched.
    + now apply colorize_map_chars.
    + now rewrite !colorize_map_chars.
Qed.

Lemma colour_flag_without_effect_witness :
  colorize true true (render 2 (sky_of 2 [sun_obj env_sun_only])) =
    colorize false true (render 2 (sky_of 2 [sun_obj env_sun_only])).
Proof.
  refine (proj2 (proj2 (proj2
            (proj2 (colour_flag_without_effect env_sun_only 2 false true
                      empty_world [sun_obj env_sun_only]) _)))).
  repeat constructor.
Defined.

(** C9, evaluated where it fails.  In the sample run with saving
    requested the file [star_map_20240101_000000.txt] is written and the
    confirmation line is printed last, but the file is not the report
    printed before that line: its title line is the 23 characters
    backslash, [033[1mStar Map:], backslash, [033[0m], where the console
    has [Star Map:]. *)
Theorem saved_file_differs_from_console :
  let objects := visible_objects env_sun_only in
  let sky_map := sky_map_of env_sun_only 2 objects true in
  let w := snd (generate_star_map env_sun_only 2 true true empty_world) in
  save_filename env_sun_only = lit "star_map_20240101_000000.txt"
  /\ console w = console_report env_sun_only sky_map objects
                   ++ confirmation env_sun_only
  /\ read_file (save_filename env_sun_only) w
       = Some (file_report env_sun_only sky_map objects)
  /\ file_report env_sun_only sky_map objects
       <> console_report env_sun_only sky_map objects
  /\ firstn 24 (file_report env_sun_only sky_map objects) =
       92%N :: lit "033[1mStar Map:" ++ 92%N :: lit "033[0m" ++ [NL]
  /\ firstn 11 (console_report env_sun_only sky_map objects) =
       NL :: lit "Star Map:" ++ [NL].
Proof.
  intros objects sky_map w. unfold w, generate_star_map.
  rewrite report_run by lia. cbv zeta. cbn [snd console files empty_world app].
  split; [reflexivity |]. split; [reflexivity |]. split; [apply read_file_head |].
  unfold file_report, console_report, file_title.
  split; [intros E; cbn [app] in E; discriminate E |].
  split; reflexivity.
Qed.

(** * Further properties of the placement loop and the report *)

(** ** Cells of the grid *)

Lemma glyph_at_blank_grid (n : nat) (x y : Z) :
  (Z.to_nat x < n)%nat -> (Z.to_nat y < n)%nat ->
  glyph_at (replicate n (replicate n SPACE)) x y = Some SPACE.
Proof.
  intros Hx Hy. unfold glyph_at.
  rewrite lookup_replicate_2 by assumption. now apply lookup_replicate_2.
Qed.

Lemma sky_of_snoc (grid_size : Z) (objects : list Obj) (obj : Obj) :
  sky_of grid_size (objects ++ [obj]) = place grid_size (sky_of grid_size objects) obj.
Proof. unfold sky_of. now rewrite place_all_app. Qed.

(** X1. A cell inside the grid stays blank when no object projects to it,
    and a glyph other than the blank found in a cell is the glyph of a
    listed object that projects to that very cell: the loop never marks a
    cell no object maps to. *)
Theorem cells_come_from_objects (grid_size : Z) (objects : list Obj) (x y : Z) :
  in_grid grid_size x y = true ->
  (Forall (fun o => cell_of grid_size o <> (x, y)) objects ->
   glyph_at (sky_of grid_size objects) x y = Some SPACE)
  /\ (forall c, glyph_at (sky_of grid_size objects) x y = Some c -> c <> SPACE ->
      exists o, In o objects /\ cell_of grid_size o = (x, y) /\ symbol o = c).
Proof.
  intros Hin. pose proof Hin as Hrange. apply in_grid_spec in Hrange as [Hx Hy].
  assert (Hblank : glyph_at (sky_of grid_size []) x y = Some SPACE)
    by (apply glyph_at_blank_grid; lia).
  split.
  - intros Hmiss. unfold sky_of.
    rewrite glyph_at_place_all_miss by (assumption || lia). exact Hblank.
  - induction objects as [| o objects IH] using rev_ind; intros c Hc Hne.
    + rewrite Hblank in Hc. congruence.
    + rewrite sky_of_snoc in Hc.
      destruct (decide (cell_of grid_size o = (x, y))) as [E | E].
      * rewrite (glyph_at_place_hit grid_size _ o x y) in Hc
          by (assumption || apply sky_of_square).
        exists o. split; [apply in_app_iff; right; now left |]. split; congruence.
      * rewrite glyph_at_place_miss in Hc by (assumption || lia).
        destruct (IH c Hc Hne) as (o' & Hin' & Ho').
        exists o'. split; [apply in_app_iff; now left | exact Ho'].
Qed.

Lemma cells_come_from_objects_witness :
  let vega := {| name := lit "Vega"; az := 0; alt := 90;
                 symbol := BLACK_FOUR_STAR |} in
  glyph_at (sky_of 50 [vega]) 0 0 = Some SPACE
  /\ exists o, In o [vega] /\ cell_of 50 o = (25, 25) /\ symbol o = BLACK_FOUR_STAR.
Proof.
  intros vega.
  assert (Hcell : cell_of 50 vega = (25, 25)) by apply (project_zenith_even 0 25).
  split.
  - refine (proj1 (cells_come_from_objects 50 [vega] 0 0 _) _); [reflexivity |].
    constructor; [rewrite Hcell; discriminate | constructor].
  - refine (proj2 (cells_come_from_objects 50 [vega] 25 25 _) BLACK_FOUR_STAR _ _).
    + reflexivity.
    + unfold sky_of, place_all. cbn [fold_left].
      apply glyph_at_place_hit;
        [apply (square_replicate 50) | exact Hcell | reflexivity].
    + discriminate.
Defined.

Lemma marks_insert (row : list char) (i : nat) (c : char) :
  (length (filter (fun d => d <> SPACE) (<[i := c]> row))
   <= S (length (filter (fun d => d <> SPACE) row)))%nat.
Proof.
  revert i. induction row as [| d row IH]; intros i; [destruct i; cbn; lia |].
  destruct i as [| i]; cbn [list_insert insert].
  - rewrite !filter_cons. repeat destruct (decide _); cbn [length]; lia.
  - change (list_insert i c row) with (<[i := c]> row).
    rewrite !filter_cons. specialize (IH i).
    destruct (decide _); cbn [length]; [now apply le_n_S | exact IH].
Qed.

Lemma marks_alter (sky : list (list char)) (i j : nat) (c : char) :
  (marks (alter (fun row => <[i := c]> row) j sky) <= S (marks sky))%nat.
Proof.
  unfold marks. revert j. induction sky as [| row sky IH]; intros j;
    [destruct j; cbn; lia |].
  destruct j as [| j]; cbn [alter list_alter concat].
  - rewrite !filter_app, !length_app. pose proof (marks_insert row i c). lia.
  - change (list_alter ?f j sky) with (alter f j sky).
    rewrite !filter_app, !length_app. specialize (IH j). lia.
Qed.

Lemma marks_place (grid_size : Z) (sky : list (list char)) (obj : Obj) :
  (marks (place grid_size sky obj) <= S (marks sky))%nat.
Proof.
  unfold place. destruct (project _ _ _) as [x y].
  destruct (in_grid _ _ _); [apply marks_alter | lia].
Qed.

Lemma blank_row_unmarked (m : nat) :
  filter (fun c => c <> SPACE) (replicate m SPACE) = [].
Proof.
  induction m as [| m IH]; [reflexivity |].
  cbn [replicate]. rewrite filter_cons. now destruct (decide _).
Qed.

Lemma marks_blank (n m : nat) : marks (replicate n (replicate m SPACE)) = 0%nat.
Proof.
  unfold marks. induction n as [| n IH]; [reflexivity |].
  cbn [replicate concat]. now rewrite filter_app, length_app, IH, blank_row_unmarked.
Qed.

Lemma marks_le_objects (grid_size : Z) (objects : list Obj) :
  (marks (sky_of grid_size objects) <= length objects)%nat.
Proof.
  induction objects as [| o objects IH] using rev_ind.
  - unfold sky_of. cbn [place_all fold_left length]. now rewrite marks_blank.
  - rewrite sky_of_snoc, length_app. cbn [length].
    pose proof (marks_place grid_size (sky_of grid_size objects) o). lia.
Qed.

Lemma marks_insert_glyph (row : list char) (i : nat) (c : char) :
  c <> SPACE -> (i < length row)%nat ->
  length (filter (fun d => d <> SPACE) (<[i := c]> row)) =
    (length (filter (fun d => d <> SPACE) row)
     + if bool_decide (row !! i = Some SPACE) then 1 else 0)%nat.
Proof.
  intros Hc. revert i. induction row as [| d row IH]; intros i Hi;
    [cbn in Hi; lia |].
  destruct i as [| i]; cbn [list_insert insert lookup list_lookup].
  - rewrite !filter_cons. destruct (decide (c <> SPACE)) as [_ | E]; [| now elim E].
    destruct (decide (d <> SPACE)) as [Hd | Hd]; cbn [length].
    + rewrite bool_decide_eq_false_2 by congruence. lia.
    + rewrite bool_decide_eq_true_2; [lia |].
      destruct (decide (d = SPACE)) as [-> | Hne]; [reflexivity | now elim Hd].
  - change (list_insert i c row) with (<[i := c]> row).
    change (list_lookup i row) with (row !! i).
    cbn [length] in Hi. rewrite !filter_cons.
    destruct (decide (d <> SPACE)); cbn [length]; rewrite IH by lia; reflexivity.
Qed.

Lemma marks_alter_glyph (sky : list (list char)) (i j : nat) (c : char) (row : list char) :
  c <> SPACE -> sky !! j = Some row -> (i < length row)%nat ->
  marks (alter (fun r => <[i := c]> r) j sky) =
    (marks sky + if bool_decide (row !! i = Some SPACE) then 1 else 0)%nat.
Proof.
  intros Hc. unfold marks. revert j.
  induction sky as [| r sky IH]; intros j Hj Hi; [discriminate |].
  destruct j as [| j]; cbn [alter list_alter concat].
  - cbn in Hj. inversion Hj; subst r.
    rewrite !filter_app, !length_app, marks_insert_glyph by assumption.
    destruct (bool_decide _); lia.
  - change (list_alter ?f j sky) with (alter f j sky).
    cbn in Hj. rewrite !filter_app, !length_app, (IH j) by assumption.
    destruct (bool_decide _); lia.
Qed.

Lemma marks_place_inside (grid_size : Z) (sky : list (list char)) (obj : Obj)
    (x y : Z) :
  square (Z.to_nat grid_size) sky -> symbol obj <> SPACE ->
  cell_of grid_size obj = (x, y) -> in_grid grid_size x y = true ->
  marks (place grid_size sky obj) =
    (marks sky + if bool_decide (glyph_at sky x y = Some SPACE) then 1 else 0)%nat.
Proof.
  intros [Hlen Hrows] Hs Hcell Hin. unfold place. unfold cell_of in Hcell.
  rewrite Hcell, Hin. apply in_grid_spec in Hin as [Hx Hy].
  destruct (sky !! Z.to_nat y) as [row |] eqn:Hrow.
  - rewrite (marks_alter_glyph sky _ _ _ row); try assumption.
    + unfold glyph_at. now rewrite Hrow.
    + rewrite (Forall_lookup_1 _ _ _ _ Hrows Hrow). lia.
  - apply lookup_ge_None in Hrow. lia.
Qed.

Lemma blank_iff_no_object (grid_size : Z) (objects : list Obj) (x y : Z) :
  Forall (fun o => symbol o <> SPACE) objects -> in_grid grid_size x y = true ->
  glyph_at (sky_of grid_size objects) x y = Some SPACE
  <-> (x, y) ∉ in_grid_cells grid_size objects.
Proof.
  intros Hs Hin. pose proof Hin as Hrange. apply in_grid_spec in Hrange as [Hx Hy].
  induction objects as [| o objects IH] using rev_ind.
  - split; [intros _; apply not_elem_of_nil |].
    intros _. apply glyph_at_blank_grid; lia.
  - apply Forall_app in Hs as [Hs Ho]. inversion Ho as [| ? ? Ho' _]; subst.
    specialize (IH Hs). rewrite sky_of_snoc.
    unfold in_grid_cells. rewrite List.map_app, List.filter_app. cbn [map List.filter].
    fold (in_grid_cells grid_size objects). rewrite elem_of_app.
    destruct (decide (cell_of grid_size o = (x, y))) as [E | E].
    + rewrite (glyph_at_place_hit grid_size _ o x y)
        by (assumption || apply sky_of_square).
      rewrite E. cbn [fst snd]. rewrite Hin. split; [congruence |].
      intros H. elim H. right. now left.
    + rewrite glyph_at_place_miss by (assumption || lia). rewrite IH.
      split.
      * intros H [H' | H']; [now apply H |].
        destruct (in_grid grid_size (fst (cell_of grid_size o))
                    (snd (cell_of grid_size o)));
          [| now apply not_elem_of_nil in H'].
        apply list_elem_of_singleton in H'. congruence.
      * intros H H'. apply H. now left.
Qed.

Lemma remove_dups_snoc_length {A} `{EqDecision A} (l : list A) (c : A) :
  length (remove_dups (l ++ [c])) =
    (length (remove_dups l) + if bool_decide (c ∈ l) then 0 else 1)%nat.
Proof.
  destruct (decide (c ∈ l)) as [Hc | Hc].
  - rewrite bool_decide_eq_true_2 by assumption.
    rewrite (Permutation_length (l' := remove_dups l)); [lia |].
    apply NoDup_Permutation; try apply NoDup_remove_dups.
    intros a. rewrite !elem_of_remove_dups, elem_of_app, list_elem_of_singleton.
    split; [intros [H | ->]; assumption | now left].
  - rewrite bool_decide_eq_false_2 by assumption.
    rewrite (Permutation_length (l' := c :: remove_dups l)); [cbn [length]; lia |].
    apply NoDup_Permutation; try apply NoDup_remove_dups.
    + apply NoDup_cons. split; [| apply NoDup_remove_dups].
      now rewrite elem_of_remove_dups.
    + intros a. rewrite elem_of_cons, !elem_of_remove_dups, elem_of_app,
        list_elem_of_singleton. tauto.
Qed.

(** X2. Each glyph on the grid stands for one cell that objects project
    to: when no object carries the blank as its glyph, the number of
    cells that are not blank equals the number of distinct cells inside
    the grid that the objects project to, so objects that share a cell
    count once and objects outside the grid not at all.  In any case the
    grid holds no more glyphs than there are objects. *)
Theorem marks_count_cells (grid_size : Z) (objects : list Obj) :
  (marks (sky_of grid_size objects) <= length objects)%nat
  /\ (Forall (fun o => symbol o <> SPACE) objects ->
      marks (sky_of grid_size objects) =
        length (remove_dups (in_grid_cells grid_size objects))).
Proof.
  split; [apply marks_le_objects |].
  induction objects as [| o objects IH] using rev_ind; intros Hs.
  - unfold sky_of. cbn [place_all fold_left]. now rewrite marks_blank.
  - pose proof Hs as Hs'. apply Forall_app in Hs' as [Hs' Ho].
    inversion Ho as [| ? ? Ho' _]; subst. specialize (IH Hs').
    rewrite sky_of_snoc. unfold in_grid_cells.
    rewrite List.map_app, List.filter_app. cbn [map List.filter].
    fold (in_grid_cells grid_size objects).
    destruct (cell_of grid_size o) as [x y] eqn:Hcell. cbn [fst snd].
    destruct (in_grid grid_size x y) eqn:Hin.
    + rewrite (marks_place_inside grid_size _ o x y)
        by (assumption || apply sky_of_square).
      rewrite remove_dups_snoc_length, IH. f_equal.
      pose proof (blank_iff_no_object grid_size objects x y Hs' Hin) as Hiff.
      destruct (decide ((x, y) ∈ in_grid_cells grid_size objects)) as [Hc | Hc].
      * rewrite (bool_decide_eq_true_2 _ Hc).
        rewrite bool_decide_eq_false_2; [reflexivity | tauto].
      * rewrite (bool_decide_eq_false_2 _ Hc).
        rewrite bool_decide_eq_true_2; [reflexivity | tauto].
    + rewrite place_outside, app_nil_r; [exact IH |].
      now rewrite Hcell.
Qed.

Lemma marks_count_cells_witness :
  let vega := {| name := lit "Vega"; az := 0; alt := 90;
                 symbol := BLACK_FOUR_STAR |} in
  let high_sun := {| name := lit "Sun"; az := 0; alt := 90;
                     symbol := SUN_WITH_FACE |} in
  let low_moon := {| name := lit "Moon"; az := 90; alt := 0;
                     symbol := FULL_MOON |} in
  marks (sky_of 50 [vega; high_sun; low_moon]) = 1%nat.
Proof.
  intros vega high_sun low_moon.
  rewrite (proj2 (marks_count_cells 50 [vega; high_sun; low_moon])).
  - unfold in_grid_cells. cbn [map].
    change (cell_of 50 vega) with (project 0 90 (2 * 25)).
    change (cell_of 50 high_sun) with (project 0 90 (2 * 25)).
    change (cell_of 50 low_moon) with (project 90 0 50).
    rewrite project_zenith_even, project_horizon_east. reflexivity.
  - repeat constructor; discriminate.
Defined.

(** ** The list of objects *)

Lemma filter_names_NoDup (keep : Star -> bool) (stars : list Star) :
  NoDup (map s_name stars) -> NoDup (map s_name (List.filter keep stars)).
Proof.
  induction stars as [| s stars IH]; intros Hnd; [constructor |].
  cbn [map] in Hnd. apply NoDup_cons in Hnd as [Hnotin Hnd].
  cbn [List.filter]. destruct (keep s); [| now apply IH].
  cbn [map]. apply NoDup_cons. split; [| now apply IH].
  intros Hin. apply Hnotin.
  apply list_elem_of_In in Hin. apply list_elem_of_In.
  apply in_map_iff in Hin as (s' & E & Hs').
  apply filter_In in Hs' as [Hs' _]. apply in_map_iff. now exists s'.
Qed.

Lemma filter_names_In (keep : Star -> bool) (stars : list Star) (n : pystr) :
  In n (map s_name (List.filter keep stars)) -> In n (map s_name stars).
Proof.
  intros Hin. apply in_map_iff in Hin as (s & E & Hs).
  apply filter_In in Hs as [Hs _]. apply in_map_iff. now exists s.
Qed.

Lemma star_names_distinct : NoDup (lit "Moon" :: lit "Sun" :: map s_name star_data).
Proof. apply (bool_decide_unpack _). vm_compute. exact I. Qed.

(** X3. No object is listed twice and at most 17 are listed: the names in
    the list of objects are pairwise different, whatever the
    observation. *)
Theorem listed_names_distinct (env : Env) :
  NoDup (map name (visible_objects env))
  /\ (length (visible_objects env) <= 17)%nat.
Proof.
  pose proof star_names_distinct as Hnd.
  apply NoDup_cons in Hnd as [Hmoon Hnd]. apply NoDup_cons in Hnd as [Hsun Hnd].
  rewrite visible_objects_eq. unfold visible_stars. split.
  - rewrite !List.map_app, List.map_map. cbn [name star_obj].
    change (map (fun x => s_name x) ?l) with (map s_name l).
    apply NoDup_app. split; [now apply filter_names_NoDup |]. split.
    + intros n Hn Hn'. apply list_elem_of_In, filter_names_In in Hn.
      apply list_elem_of_In in Hn'. apply in_app_iff in Hn' as [Hn' | Hn'].
      * destruct (sun_visible env); [| easy]. destruct Hn' as [<- | []].
        apply Hsun. now apply list_elem_of_In.
      * destruct (moon_visible env); [| easy]. destruct Hn' as [<- | []].
        apply Hmoon. apply list_elem_of_In. now right.
    + destruct (sun_visible env), (moon_visible env); cbn [map app];
        repeat constructor; try (intros H; apply list_elem_of_In in H; now inversion H).
  - rewrite !length_app, length_map.
    pose proof (filter_length_le (star_visible env) star_data) as Hle.
    change (length star_data) with 15%nat in Hle.
    destruct (sun_visible env), (moon_visible env); cbn [length]; lia.
Qed.

(** ** Size of the map *)

Lemma join_length_uniform (m : nat) (parts : list pystr) :
  Forall (fun p => length p = m) parts -> parts <> [] ->
  S (length (join [NL] parts)) = (length parts * S m)%nat.
Proof.
  induction 1 as [| p parts Hp Hparts IH]; intros Hne; [now elim Hne |].
  cbn [join length]. destruct parts as [| q parts].
  - cbn. lia.
  - rewrite !length_app. cbn [length] in *.
    assert (Hq : q :: parts <> []) by discriminate.
    specialize (IH Hq). lia.
Qed.

(** X4. The text of the map has the same size whatever is placed on it:
    [N + 2] lines of [N + 2] characters joined by [N + 1] newlines, for a
    grid of size [N]. *)
Theorem map_size (grid_size : Z) (objects : list Obj) :
  let N := Z.to_nat grid_size in
  S (length (render grid_size (sky_of grid_size objects))) = ((N + 2) * (N + 3))%nat.
Proof.
  intros N. destruct (sky_of_square grid_size objects) as [Hlen Hrows].
  unfold render, sky_rows.
  assert (Hb : length (border grid_size) = (N + 2)%nat).
  { unfold border. cbn [length]. rewrite length_app, length_replicate.
    cbn [length]. fold N. lia. }
  rewrite (join_length_uniform (N + 2)).
  - cbn [length]. rewrite length_app, length_map, Hlen. cbn [length]. fold N. lia.
  - constructor; [exact Hb |]. apply Forall_app; split; [| now constructor].
    apply Forall_fmap. eapply Forall_impl; [exact Hrows |].
    intros row Hrow. cbn. rewrite length_app, Hrow. cbn [length]. fold N. lia.
  - discriminate.
Qed.

(** ** Files *)

Lemma find_other_files (filename other : pystr) (fs : list (pystr * pystr)) :
  filename <> other ->
  find (fun p : pystr * pystr => pystr_eqb (fst p) filename) (other_files other fs) =
    find (fun p : pystr * pystr => pystr_eqb (fst p) filename) fs.
Proof.
  intros Hne. unfold other_files. induction fs as [| p fs IH]; [reflexivity |].
  rewrite filter_cons. destruct (decide _) as [E | E]; cbn [find].
  - now rewrite IH.
  - rewrite IH.
    assert (Hp : fst p = other).
    { unfold pystr_eqb in E. apply not_false_is_true in E.
      now apply bool_decide_eq_true_1 in E. }
    assert (Hf : pystr_eqb (fst p) filename = false).
    { apply bool_decide_eq_false_2. congruence. }
    now rewrite Hf.
Qed.

(** X5. A run writes no file unless saving is requested, and a run that
    saves touches only the file it names: any file with another name
    reads as before. *)
Theorem other_files_untouched (env : Env) (grid_size : Z)
    (save_to_file color_output : bool) (w : World) (filename : pystr) :
  let w' := snd (generate_star_map env grid_size save_to_file color_output w) in
  (save_to_file = false -> files w' = files w)
  /\ (filename <> save_filename env -> read_file filename w' = read_file filename w).
Proof.
  intros w'. unfold w', generate_star_map.
  destruct (Z.lt_ge_cases grid_size 0) as [Hneg | Hpos].
  - rewrite report_negative by assumption. now split.
  - rewrite report_run by assumption. cbv zeta. cbn [snd files].
    split; [now intros -> |].
    intros Hne. destruct save_to_file; [| reflexivity].
    unfold read_file. cbn [files find fst].
    assert (Hf : pystr_eqb (save_filename env) filename = false).
    { apply bool_decide_eq_false_2. congruence. }
    now rewrite Hf, find_other_files.
Qed.

Lemma other_files_untouched_witness :
  files (snd (generate_star_map env_sun_only 2 false true empty_world)) = []
  /\ read_file (lit "notes.txt")
       (snd (generate_star_map env_sun_only 2 true true
               {| console := []; files := [(lit "notes.txt", lit "keep")] |}))
     = Some (lit "keep").
Proof.
  split.
  - exact (proj1 (other_files_untouched env_sun_only 2 false true empty_world [])
             eq_refl).
  - refine (eq_trans
              (proj2 (other_files_untouched env_sun_only 2 true true _ (lit "notes.txt")) _)
              _).
    + intros E. vm_compute in E. discriminate E.
    + reflexivity.
Defined.

(** * Properties of the input functions and the main block *)

(** ** White space *)

Lemma lstrip_nil_iff (s : pystr) :
  lstrip s = [] <-> Forall (fun c => is_space c = true) s.
Proof.
  induction s as [| c s IH]; [split; [constructor | reflexivity] |].
  cbn [lstrip]. destruct (is_space c) eqn:E.
  - rewrite IH. split; [now constructor | now inversion 1].
  - split; [discriminate |]. inversion 1; congruence.
Qed.

Lemma lstrip_head (s : pystr) (c : char) (t : pystr) :
  lstrip s = c :: t -> is_space c = false.
Proof.
  induction s as [| d s IH]; [discriminate |].
  cbn [lstrip]. destruct (is_space d) eqn:E; [exact IH |].
  intros H. now inversion H; subst.
Qed.

Lemma strip_nil_iff (s : pystr) :
  strip s = [] <-> Forall (fun c => is_space c = true) s.
Proof.
  unfold strip, rstrip. split.
  - intros H. apply lstrip_nil_iff.
    destruct (lstrip s) as [| c t] eqn:E; [reflexivity |].
    destruct (lstrip (rev (c :: t))) as [| d u] eqn:E2.
    + apply lstrip_nil_iff in E2.
      assert (Hc : is_space c = true).
      { apply (proj1 (Forall_forall _ _) E2).
        apply list_elem_of_In, in_rev. rewrite rev_involutive. now left. }
      apply lstrip_head in E. congruence.
    + cbn [rev] in H. apply app_eq_nil in H as [_ H]. discriminate H.
  - intros H. apply lstrip_nil_iff in H. now rewrite H.
Qed.

Lemma blank_or_not (s : pystr) :
  Forall (fun c => is_space c = true) s \/ not_blank s.
Proof.
  unfold not_blank. induction s as [| c s [IH | IH]].
  - left. constructor.
  - destruct (is_space c) eqn:E; [left; now constructor | right; now left].
  - right. now right.
Qed.

Lemma strip_blank (s : pystr) :
  Forall (fun c => is_space c = true) s -> pystr_eqb (strip s) [] = true.
Proof. intros H. apply bool_decide_eq_true_2. now apply strip_nil_iff. Qed.

Lemma strip_not_blank (s : pystr) :
  not_blank s -> pystr_eqb (strip s) [] = false.
Proof.
  intros H. apply bool_decide_eq_false_2. intros E.
  apply strip_nil_iff in E. unfold not_blank in H.
  apply Exists_exists in H as (c & Hin & Hc).
  apply (proj1 (Forall_forall _ _) E) in Hin. congruence.
Qed.

(** ** Steps *)

Lemma input_line {B} (prompt s : pystr) (k : pystr -> Run B)
    (keys : list keyboard) (w : World) :
  run_bind (input prompt) k (Line s :: keys) w =
    k s keys {| console := console w ++ prompt; files := files w |}.
Proof. reflexivity. Qed.

Lemma lift_print (s : pystr) (keys : list keyboard) (w : World) :
  lift (print s) keys w =
    (Done tt, keys, {| console := console w ++ s ++ [NL]; files := files w |}).
Proof. reflexivity. Qed.

Lemma float_of_value {B} (lib : Lib) (s : pystr) (x : R) (k : R -> Run B)
    (keys : list keyboard) (w : World) :
  py_float lib s = inl x -> run_bind (float_of lib s) k keys w = k x keys w.
Proof. intros H. unfold run_bind, float_of. now rewrite H. Qed.


(** ** The location *)





(** ** What the questions leave alone *)

Lemma keeps_files_bind {A B} (m : Run A) (k : A -> Run B) :
  keeps_files m -> (forall a, keeps_files (k a)) -> keeps_files (run_bind m k).
Proof.
  intros Hm Hk keys w. unfold run_bind. specialize (Hm keys w).
  destruct (m keys w) as [[[a | s] keys'] w']; cbn [snd] in *.
  - now rewrite Hk.
  - exact Hm.
Qed.

Lemma keeps_files_input (prompt : pystr) : keeps_files (input prompt).
Proof. intros [| [s |] keys] w; reflexivity. Qed.

Lemma keeps_files_ret {A} (a : A) : keeps_files (run_ret a).
Proof. intros keys w. reflexivity. Qed.

Lemma keeps_files_print (s : pystr) : keeps_files (lift (print s)).
Proof. intros keys w. reflexivity. Qed.

Lemma keeps_files_float (lib : Lib) (s : pystr) : keeps_files (float_of lib s).
Proof. intros keys w. unfold float_of. now destruct (py_float lib s). Qed.

Lemma keeps_files_int (lib : Lib) (s : pystr) : keeps_files (int_of lib s).
Proof. intros keys w. unfold int_of. now destruct (py_int lib s). Qed.

Lemma keeps_files_pure {A} (r : result A) : keeps_files (lift (fun w => (r, w))).
Proof. intros keys w. unfold lift. now destruct r. Qed.

Lemma keeps_files_try {A} (body handler : Run A) :
  keeps_files body -> keeps_files handler ->
  keeps_files (try_except_ValueError body handler).
Proof.
  intros Hb Hh keys w. unfold try_except_ValueError. specialize (Hb keys w).
  destruct (body keys w) as [[[a | [[msg | msg] | |]] keys'] w']; cbn [snd] in *;
    try exact Hb.
  now rewrite Hh.
Qed.

Lemma keeps_files_location (lib : Lib) : keeps_files (get_user_location lib).
Proof.
  unfold get_user_location, greenwich.
  apply keeps_files_try; repeat (apply keeps_files_bind; [| intros ?]);
    auto using keeps_files_input, keeps_files_float, keeps_files_pure,
      keeps_files_print.
Qed.

Lemma keeps_files_datetime (lib : Lib) : keeps_files (get_user_datetime lib).
Proof.
  unfold get_user_datetime.
  apply keeps_files_bind; [apply keeps_files_input | intros s].
  destruct (pystr_eqb _ _); [apply keeps_files_ret |].
  destruct (strptime _ _ _); [apply keeps_files_ret |].
  apply keeps_files_bind; [apply keeps_files_print | intros _; apply keeps_files_ret].
Qed.

(** X8. With a default location that [EarthLocation] accepts, no
    [ValueError] escapes from [get_user_location], whatever is typed: it
    yields a location, or it is stopped by the end of the input, by the
    user's interrupt or by an exception of another class raised by
    [EarthLocation]; and it writes no file. *)
Theorem location_never_value_error (lib : Lib) (default : Location lib)
    (keys : list keyboard) (w : World) :
  EarthLocation lib (514769 / 10000) (- (5 / 10000)) = Ok default ->
  (forall msg,
     fst (fst (get_user_location lib keys w)) <> Fail (Exception (ValueError msg)))
  /\ files (snd (get_user_location lib keys w)) = files w.
Proof.
  intros Hdef. split; [| apply keeps_files_location].
  intros msg0. unfold get_user_location, try_except_ValueError.
  match goal with |- context [match ?body keys w with _ => _ end] =>
    destruct (body keys w) as [[[a | [[msg | msg] | |]] keys'] w'] end;
    cbn [fst]; try discriminate.
  unfold run_bind. rewrite lift_print. unfold greenwich, lift. rewrite Hdef.
  cbn [fst]. discriminate.
Qed.

Lemma location_never_value_error_witness :
  (forall msg,
     fst (fst (get_user_location sample_lib [Line (lit "north")] empty_world))
     <> Fail (Exception (ValueError msg)))
  /\ files (snd (get_user_location sample_lib [Line (lit "north")] empty_world)) = [].
Proof.
  exact (location_never_value_error sample_lib _ [Line (lit "north")] empty_world
           eq_refl).
Defined.

(** ** The observing time *)

(** X9. Given a line, [get_user_datetime] always yields a time and
    consumes that line only.  A line of white space alone (or an empty
    one) silently gives the current time; a line that [strptime] parses
    gives that date and time; any other line gives the current time
    after the warning. *)
Theorem datetime_from_line (lib : Lib) (text : pystr) (keys : list keyboard)
    (w : World) :
  let prompt :=
    lit "Enter date and time in YYYY-MM-DD HH:MM format (leave blank for current time): " in
  (Forall (fun c => is_space c = true) text ->
   get_user_datetime lib (Line text :: keys) w =
     (Done (Time_now lib), keys,
      {| console := console w ++ prompt; files := files w |}))
  /\ (not_blank text ->
      get_user_datetime lib (Line text :: keys) w =
        match strptime lib text (lit "%Y-%m-%d %H:%M") with
        | Some dt =>
            (Done (Time_of lib dt), keys,
             {| console := console w ++ prompt; files := files w |})
        | None =>
            (Done (Time_now lib), keys,
             {| console := (console w ++ prompt)
                             ++ lit "Invalid date/time format. Using current time."
                             ++ [NL];
                files := files w |})
        end).
Proof.
  intros prompt. unfold get_user_datetime. fold prompt. rewrite input_line. split.
  - intros Hblank. now rewrite strip_blank.
  - intros Hnb. rewrite strip_not_blank by assumption.
    destruct (strptime lib text _); [reflexivity |].
    unfold run_bind. rewrite lift_print. reflexivity.
Qed.

Lemma datetime_from_line_witness :
  fst (fst (get_user_datetime sample_lib (Line (lit "  ") :: []) empty_world)) = Done tt
  /\ fst (fst (get_user_datetime sample_lib (Line (lit "soon") :: []) empty_world))
     = Done tt.
Proof.
  destruct (datetime_from_line sample_lib (lit "  ") [] empty_world) as [H1 _].
  destruct (datetime_from_line sample_lib (lit "soon") [] empty_world) as [_ H2].
  split.
  - rewrite H1; [reflexivity |]. repeat constructor.
  - rewrite H2; [reflexivity |]. left. reflexivity.
Defined.

(** ** The main block *)

Lemma generate_star_map_colour (env : Env) (grid_size : Z) (save_to_file : bool)
    (c c' : bool) (w : World) :
  generate_star_map env grid_size save_to_file c w =
    generate_star_map env grid_size save_to_file c' w.
Proof.
  unfold generate_star_map.
  destruct (Z.lt_ge_cases grid_size 0) as [Hneg | Hpos].
  - now rewrite !report_negative.
  - rewrite !report_run by assumption. cbv zeta. unfold sky_map_of.
    rewrite !colorize_map_chars; [reflexivity | |];
      apply render_map_chars, sky_of_map_chars, visible_objects_glyphs.
Qed.

Lemma asking_colour (lib : Lib) (grid_size : Z) (save_to_file c c' : bool)
    (keys : list keyboard) (w : World) :
  generate_star_map_asking lib grid_size save_to_file c keys w =
    generate_star_map_asking lib grid_size save_to_file c' keys w.
Proof.
  unfold generate_star_map_asking, run_bind.
  destruct (get_user_location lib keys w) as [[[location | s] keys1] w1];
    [| reflexivity].
  destruct (get_user_datetime lib keys1 w1) as [[[t | s] keys2] w2]; [| reflexivity].
  unfold lift. now rewrite (generate_star_map_colour _ _ _ c c').
Qed.

Lemma keeps_files_generate (env : Env) (grid_size : Z) (color_output : bool) :
  keeps_files (lift (generate_star_map env grid_size false color_output)).
Proof.
  intros keys w. unfold lift, generate_star_map.
  destruct (Z.lt_ge_cases grid_size 0) as [Hneg | Hpos].
  - now rewrite report_negative.
  - now rewrite report_run.
Qed.

Lemma keeps_files_asking (lib : Lib) (grid_size : Z) (color_output : bool) :
  keeps_files (generate_star_map_asking lib grid_size false color_output).
Proof.
  unfold generate_star_map_asking.
  apply keeps_files_bind; [apply keeps_files_location | intros location].
  apply keeps_files_bind; [apply keeps_files_datetime | intros t].
  apply keeps_files_generate.
Qed.

Lemma main_files (lib : Lib) (keys : list keyboard) (w : World) :
  files (snd (main lib keys w)) = files (snd (main_body lib keys w)).
Proof.
  unfold main.
  destruct (main_body lib keys w) as [[[[] | [e | |]] keys'] w']; reflexivity.
Qed.

(** X10. The main block always ends normally: whatever is typed, and
    wherever the input ends or is interrupted, every failure is caught
    and reported on the console. *)
Theorem main_always_returns (lib : Lib) (keys : list keyboard) (w : World) :
  fst (fst (main lib keys w)) = Done tt.
Proof.
  unfold main.
  destruct (main_body lib keys w) as [[[[] | [e | |]] keys'] w']; reflexivity.
Qed.

(** X11. A grid size that is not blank and that [int] rejects ends the
    run at once: the console shows the first prompt followed by the line
    [An error occurred: <message of the ValueError>], no further
    question is asked and no file is written. *)
Theorem bad_grid_size_stops (lib : Lib) (grid_text msg : pystr)
    (keys : list keyboard) (w : World) :
  not_blank grid_text -> py_int lib grid_text = inr msg ->
  main lib (Line grid_text :: keys) w =
    (Done tt, keys,
     {| console :=
          (console w
             ++ lit "Enter grid size (recommended between 20 and 100, default 50): ")
            ++ (lit "An error occurred: " ++ msg) ++ [NL];
        files := files w |}).
Proof.
  intros Hnb Hint. unfold main, main_body.
  rewrite input_line, strip_not_blank by assumption. cbn [negb].
  unfold run_bind at 1, int_of. rewrite Hint. reflexivity.
Qed.

Lemma bad_grid_size_stops_witness :
  main sample_lib (Line (lit "big") :: [Line (lit "y")]) empty_world =
    (Done tt, [Line (lit "y")],
     {| console :=
          ([] ++ lit "Enter grid size (recommended between 20 and 100, default 50): ")
            ++ (lit "An error occurred: "
                  ++ lit "invalid literal for int() with base 10") ++ [NL];
        files := [] |}).
Proof.
  apply (bad_grid_size_stops sample_lib (lit "big")); [| reflexivity].
  left. reflexivity.
Defined.

Lemma grid_size_step (lib : Lib) (grid_text : pystr) :
  exists r : outcome Z, forall keys w,
    (if negb (pystr_eqb (strip grid_text) []) then int_of lib grid_text
     else run_ret 50) keys w = (r, keys, w).
Proof.
  unfold int_of, run_ret.
  destruct (negb _); [destruct (py_int lib grid_text) as [n | msg] |];
    eexists; intros keys w; reflexivity.
Qed.

Lemma run_bind_pure {A B} (m : Run A) (k : A -> Run B) (r : outcome A)
    (keys : list keyboard) (w : World) :
  m keys w = (r, keys, w) ->
  run_bind m k keys w =
    match r with
    | Done a => k a keys w
    | Fail s => (Fail s, keys, w)
    end.
Proof. unfold run_bind. intros ->. now destruct r. Qed.

Lemma main_body_lines (lib : Lib) (grid_text : pystr) :
  exists r : outcome Z,
    (forall keys w,
       (if negb (pystr_eqb (strip grid_text) []) then int_of lib grid_text
        else run_ret 50) keys w = (r, keys, w))
    /\ forall save_text color_text keys w,
      main_body lib (Line grid_text :: Line save_text :: Line color_text :: keys) w =
        let w1 := {| console := console w
                       ++ lit "Enter grid size (recommended between 20 and 100, default 50): ";
                     files := files w |} in
        match r with
        | Done grid_size =>
            generate_star_map_asking lib grid_size
              (pystr_eqb (py_lower lib (strip save_text)) (lit "y"))
              (negb (pystr_eqb (py_lower lib (strip color_text)) (lit "n")))
              keys
              {| console :=
                   (console w1
                      ++ lit "Do you want to save the star map to a file? (y/n, default n): ")
                     ++ lit "Do you want colored output? (y/n, default y): ";
                 files := files w |}
        | Fail s => (Fail s, Line save_text :: Line color_text :: keys, w1)
        end.
Proof.
  destruct (grid_size_step lib grid_text) as [r Hstep]. exists r.
  split; [exact Hstep |]. intros save_text color_text keys w.
  unfold main_body. rewrite input_line.
  rewrite (run_bind_pure _ _ r) by apply Hstep.
  destruct r as [n | s]; [| reflexivity].
  rewrite !input_line. reflexivity.
Qed.

(** X12. The answer to the colour question has no effect on a run: two
    sessions that differ only in the third line typed end the same way,
    with the same console text and the same files. *)
Theorem colour_answer_irrelevant (lib : Lib) (grid_text save_text c c' : pystr)
    (keys : list keyboard) (w : World) :
  let run := main lib (Line grid_text :: Line save_text :: Line c :: keys) w in
  let run' := main lib (Line grid_text :: Line save_text :: Line c' :: keys) w in
  fst (fst run) = fst (fst run') /\ snd run = snd run'.
Proof.
  intros run run'. unfold run, run', main.
  destruct (main_body_lines lib grid_text) as (r & _ & Hbody). rewrite !Hbody.
  cbv zeta. destruct r as [n | s].
  - rewrite (asking_colour lib n _
               (negb (pystr_eqb (py_lower lib (strip c)) (lit "n")))
               (negb (pystr_eqb (py_lower lib (strip c')) (lit "n")))).
    split; reflexivity.
  - destruct s as [e | |]; split; reflexivity.
Qed.

Lemma colour_answer_irrelevant_witness :
  snd (main sample_lib
         (Line (lit "50") :: Line (lit "n") :: Line (lit "y") :: []) empty_world) =
  snd (main sample_lib
         (Line (lit "50") :: Line (lit "n") :: Line (lit "n") :: []) empty_world).
Proof.
  exact (proj2 (colour_answer_irrelevant sample_lib (lit "50") (lit "n")
                  (lit "y") (lit "n") [] empty_world)).
Defined.

Lemma files_changed_bind {A B} (m : Run A) (k : A -> Run B)
    (keys : list keyboard) (w : World) :
  keeps_files m ->
  files (snd (run_bind m k keys w)) <> files w ->
  exists a keys' w',
    m keys w = (Done a, keys', w') /\ files w' = files w
    /\ files (snd (k a keys' w')) <> files w'.
Proof.
  intros Hm. unfold run_bind. specialize (Hm keys w).
  destruct (m keys w) as [[[a | s] keys'] w']; cbn [snd] in *; intros H.
  - exists a, keys', w'. split; [reflexivity |]. split; [exact Hm | congruence].
  - congruence.
Qed.

Lemma input_done (prompt s : pystr) (keys keys' : list keyboard) (w w' : World) :
  input prompt keys w = (Done s, keys', w') -> keys = Line s :: keys'.
Proof.
  unfold input. destruct keys as [| [t |] keys0]; intros H; inversion H.
  reflexivity.
Qed.

(** X13. The main block writes a file only when asked to: if the files
    differ after a session, the second line typed, stripped of white
    space and put in lower case, is exactly [y]. *)
Theorem writes_only_on_y (lib : Lib) (keys : list keyboard) (w : World) :
  files (snd (main lib keys w)) <> files w ->
  exists grid_text save_text keys',
    keys = Line grid_text :: Line save_text :: keys'
    /\ py_lower lib (strip save_text) = lit "y".
Proof.
  rewrite main_files. unfold main_body. intros H.
  apply files_changed_bind in H as (g & k1 & w1 & E1 & F1 & H);
    [| apply keeps_files_input].
  apply input_done in E1. subst keys.
  destruct (grid_size_step lib g) as [r Hstep].
  apply files_changed_bind in H as (n & k2 & w2 & E2 & F2 & H).
  2: { intros keys w0. now rewrite Hstep. }
  rewrite Hstep in E2. inversion E2; subst k2 w2. clear E2.
  apply files_changed_bind in H as (s & k3 & w3 & E3 & F3 & H);
    [| apply keeps_files_input].
  apply input_done in E3. subst k1.
  apply files_changed_bind in H as (c & k4 & w4 & E4 & F4 & H);
    [| apply keeps_files_input].
  exists g, s, k3. split; [reflexivity |].
  destruct (pystr_eqb (py_lower lib (strip s)) (lit "y")) eqn:Hy.
  - now apply bool_decide_eq_true_1 in Hy.
  - exfalso. apply H. apply keeps_files_asking.
Qed.

Lemma run_bind_done {A B} (m : Run A) (k : A -> Run B) (a : A)
    (keys keys' : list keyboard) (w w' : World) :
  m keys w = (Done a, keys', w') -> run_bind m k keys w = k a keys' w'.
Proof. unfold run_bind. now intros ->. Qed.

Lemma location_accepted (lib : Lib) (lat_text lon_text : pystr) (lat lon : R)
    (location : Location lib) (keys : list keyboard) (w : World) :
  py_float lib lat_text = inl lat -> py_float lib lon_text = inl lon ->
  EarthLocation lib lat lon = Ok location ->
  get_user_location lib (Line lat_text :: Line lon_text :: keys) w =
    (Done location, keys,
     {| console :=
          (console w ++ lit "Enter your latitude (e.g., 51.4769 for Greenwich): ")
            ++ lit "Enter your longitude (e.g., -0.0005 for Greenwich): ";
        files := files w |}).
Proof.
  intros Hlat Hlon Hloc. unfold get_user_location, try_except_ValueError.
  rewrite input_line, (float_of_value lib lat_text lat) by assumption.
  rewrite input_line, (float_of_value lib lon_text lon) by assumption.
  unfold lift. now rewrite Hloc.
Qed.

Lemma datetime_blank (lib : Lib) (text : pystr) (keys : list keyboard) (w : World) :
  Forall (fun c => is_space c = true) text ->
  get_user_datetime lib (Line text :: keys) w =
    (Done (Time_now lib), keys,
     {| console :=
          console w
            ++ lit "Enter date and time in YYYY-MM-DD HH:MM format (leave blank for current time): ";
        files := files w |}).
Proof.
  intros Hblank. unfold get_user_datetime. rewrite input_line.
  now rewrite strip_blank.
Qed.

Lemma sample_session_saves :
  files (snd (main sample_lib
                (Line (lit "50") :: Line (lit "y") :: Line (lit "y")
                   :: Line (lit "0") :: Line (lit "0") :: Line [] :: [])
                empty_world)) <> files empty_world.
Proof.
  rewrite main_files.
  destruct (main_body_lines sample_lib (lit "50")) as (r & Hstep & Hbody).
  rewrite Hbody. cbv zeta.
  assert (E : r = Done 50).
  { specialize (Hstep [] empty_world).
    change ((Done 50, @nil keyboard, empty_world) = (r, [], empty_world)) in Hstep.
    now inversion Hstep. }
  rewrite E. unfold generate_star_map_asking.
  erewrite run_bind_done
    by (apply (location_accepted sample_lib (lit "0") (lit "0") 0%R 0%R (0%R, 0%R));
        reflexivity).
  erewrite run_bind_done by (apply datetime_blank; constructor).
  change (pystr_eqb (py_lower sample_lib (strip (lit "y"))) (lit "y")) with true.
  unfold lift, generate_star_map. rewrite report_run by lia.
  cbv zeta. cbn [snd files empty_world]. discriminate.
Qed.

Lemma writes_only_on_y_witness :
  exists grid_text save_text keys',
    Line (lit "50") :: Line (lit "y") :: Line (lit "y")
      :: Line (lit "0") :: Line (lit "0") :: Line [] :: []
    = Line grid_text :: Line save_text :: keys'
    /\ py_lower sample_lib (strip save_text) = lit "y".
Proof.
  exact (writes_only_on_y sample_lib _ empty_world sample_session_saves).
Defined.

(** X14. With a negative grid size both questions are still asked, and
    then the run fails with the [ValueError] of numpy: nothing more is
    printed and no file is written. *)
Theorem negative_grid_size_fails (lib : Lib) (grid_size : Z)
    (save_to_file color_output : bool) (keys : list keyboard) (w : World) :
  grid_size < 0 ->
  generate_star_map_asking lib grid_size save_to_file color_output keys w =
    match ask lib keys w with
    | (Done _, keys', w') =>
        (Fail (Exception (ValueError (lit "negative dimensions are not allowed"))),
         keys', w')
    | (Fail s, keys', w') => (Fail s, keys', w')
    end.
Proof.
  intros Hneg. unfold generate_star_map_asking, ask, run_bind.
  destruct (get_user_location lib keys w) as [[[location | s] keys1] w1];
    [| reflexivity].
  destruct (get_user_datetime lib keys1 w1) as [[[t | s] keys2] w2]; [| reflexivity].
  unfold run_ret, lift, generate_star_map. now rewrite report_negative.
Qed.

Lemma negative_grid_size_fails_witness :
  generate_star_map_asking sample_lib (-5) true true [] empty_world =
    match ask sample_lib [] empty_world with
    | (Done _, keys', w') =>
        (Fail (Exception (ValueError (lit "negative dimensions are not allowed"))),
         keys', w')
    | (Fail s, keys', w') => (Fail s, keys', w')
    end.
Proof.
  apply (negative_grid_size_fails sample_lib (-5) true true [] empty_world). lia.
Defined.

(** X15. Leaving the grid size blank is the same as answering 50: a
    session whose first line is empty or white space runs exactly like
    the session whose first line is a text that [int] reads as 50. *)
Theorem blank_grid_size_is_50 (lib : Lib) (blank fifty : pystr)
    (keys : list keyboard) (w : World) :
  Forall (fun c => is_space c = true) blank ->
  not_blank fifty -> py_int lib fifty = inl 50 ->
  main lib (Line blank :: keys) w = main lib (Line fifty :: keys) w.
Proof.
  intros Hblank Hnb Hint. unfold main, main_body. rewrite !input_line.
  rewrite strip_blank, strip_not_blank by assumption. cbn [negb].
  unfold int_of. now rewrite Hint.
Qed.

Lemma blank_grid_size_is_50_witness :
  main sample_lib (Line (lit " ") :: []) empty_world =
    main sample_lib (Line (lit "50") :: []) empty_world.
Proof.
  apply (blank_grid_size_is_50 sample_lib (lit " ") (lit "50") [] empty_world).
  - repeat constructor.
  - left. reflexivity.
  - reflexivity.
Defined.
